(** * Edge Application Agent (pkg/eaa): HTTP handlers of api_eaa.go

    A shallow embedding of the request handlers of [api_eaa.go] and of the
    collaborators they call.  The handlers are translated statement by
    statement from the Go source; logging calls ([log.Errf], [log.Debugf])
    have no effect on the state that is modelled and are left out.

    Go values are modelled as follows:
    - [string] as [string]; JSON payloads ([[]byte]) as [string];
    - an HTTP status code as [Z];
    - the Go [error] interface as [option Error] ([None] is [nil]), a pair
      [(T, error)] as [result T];
    - a pointer that may be [nil] as [option];
    - a Go [map] as stdpp's [gmap]; a [nil] map as [None];
    - [*Context], which every handler and helper shares and mutates, as an
      explicit state that is passed in and returned. *)

From Stdlib Require Import ZArith String Ascii List.
From stdpp Require Import gmap strings list fin_maps.

Local Open Scope string_scope.
Local Open Scope Z_scope.

(** ** Errors and results *)

(** The error kinds of the error-handling design, and the error of a
    failed write on a connection. *)
Inductive Error : Type :=
  | InvalidIdentity
  | NotFound
  | EncodingFailure
  | PublishFailure
  | DeliveryFailure
  | WriteFailure.

Inductive result (A : Type) : Type :=
  | Ok (a : A)
  | Err (e : Error).

Arguments Ok {A} a.
Arguments Err {A} e.

(** The [err] half of a Go [(T, error)] pair. *)
Definition err_of {A : Type} (r : result A) : option Error :=
  match r with
  | Ok _ => None
  | Err e => Some e
  end.

(** ** [net/http] status codes used by the handlers *)

Definition StatusOK : Z := 200.
Definition StatusCreated : Z := 201.
Definition StatusNoContent : Z := 204.
Definition StatusResetContent : Z := 205.
Definition StatusNotFound : Z := 404.
Definition StatusInternalServerError : Z := 500.

(** ** URN model *)

Record URN : Type := mkURN { Namespace : string; ID : string }.

(** Modelled from the spec: [URN.String] is not under src/.  The canonical
    string form is [<namespace>.<id>]. *)
Definition URN_String (u : URN) : string :=
  Namespace u ++ "." ++ ID u.

Definition is_dot (c : ascii) : bool := Ascii.eqb c ".".

(** [strings.Split(s, ".")]: the dot-delimited segments of [s], in order.
    A string without a dot is its own single segment. *)
Fixpoint split_dot (s : string) : list string :=
  match s with
  | EmptyString => [EmptyString]
  | String c rest =>
      if is_dot c then EmptyString :: split_dot rest
      else match split_dot rest with
           | seg :: segs => String c seg :: segs
           | [] => [String c EmptyString]
           end
  end.

Definition is_empty (s : string) : bool :=
  match s with
  | EmptyString => true
  | String _ _ => false
  end.

(** Modelled from the spec: [CommonNameStringToURN] ([ParseIdentity]) is not
    under src/.  It splits the common name on dots and keeps the first two
    segments; it fails with [InvalidIdentity] when fewer than two segments
    are present, or when the namespace or the id is empty. *)
Definition CommonNameStringToURN (commonName : string) : result URN :=
  match split_dot commonName with
  | ns :: id :: _ =>
      if is_empty ns || is_empty id then Err InvalidIdentity
      else Ok (mkURN ns id)
  | _ => Err InvalidIdentity
  end.

(** A string in which no dot occurs. *)
Fixpoint dotless (s : string) : bool :=
  match s with
  | EmptyString => true
  | String c rest => negb (is_dot c) && dotless rest
  end.

(** The [namespace.id] shape: two non-empty, dot-free parts around one dot. *)
Definition valid_shape (commonName : string) : Prop :=
  exists ns id : string,
    is_empty ns = false /\ is_empty id = false /\
    dotless ns = true /\ dotless id = true /\
    commonName = ns ++ "." ++ id.

(** The malformed inputs: no dot at all, an empty namespace, or an empty id
    (with or without further segments behind it). *)
Inductive malformed : string -> Prop :=
  | malformed_no_dot (s : string) :
      dotless s = true -> malformed s
  | malformed_empty_namespace (rest : string) :
      malformed ("." ++ rest)
  | malformed_empty_id (ns : string) :
      dotless ns = true -> malformed (ns ++ ".")
  | malformed_empty_id_suffix (ns rest : string) :
      dotless ns = true -> malformed (ns ++ ".." ++ rest).

(** ** Data model *)

(** Modelled from the spec: the declaration of [NotificationDescriptor] is
    not under src/.  Two descriptors are the same notification when their
    name and version agree; the custom fields do not take part. *)
Record NotificationDescriptor : Type := mkDescriptor {
  Name : string;
  Version : string;
  CustomFields : list (string * string)
}.

Definition same_descriptor (d1 d2 : NotificationDescriptor) : bool :=
  String.eqb (Name d1) (Name d2) && String.eqb (Version d1) (Version d2).

(** Modelled from the spec: the declaration of [Service] is not under src/.
    A service has a URN (a pointer, [nil] until it is set), endpoint
    metadata and descriptive fields. *)
Record Service : Type := mkService {
  Service_URN : option URN;
  EndpointURI : string;
  Description : string;
  Notifications : list NotificationDescriptor
}.

(** [var serv Service]: the zero value. *)
Definition zero_Service : Service := mkService None "" "" [].

Definition set_Service_URN (u : URN) (serv : Service) : Service :=
  mkService (Some u) (EndpointURI serv) (Description serv)
            (Notifications serv).

Inductive ServiceAction : Type :=
  | serviceActionRegister
  | serviceActionDeregister.

(** The registry-change event that is replicated over the bus. *)
Record ServiceMsg : Type := mkServiceMsg {
  Svc : option Service;
  Action : ServiceAction
}.

Record ServiceList : Type := mkServiceList { Services : list Service }.

Record NotificationFromProducer : Type := mkNotification {
  Descriptor : NotificationDescriptor;
  NotificationPayload : string
}.

(** The scope a descriptor is subscribed under. *)
Inductive Scope : Type :=
  | NamespaceScope (ns : string)
  | ServiceScope (ns id : string).

Definition scope_eqb (s1 s2 : Scope) : bool :=
  match s1, s2 with
  | NamespaceScope n1, NamespaceScope n2 => String.eqb n1 n2
  | ServiceScope n1 i1, ServiceScope n2 i2 =>
      String.eqb n1 n2 && String.eqb i1 i2
  | _, _ => false
  end.

(** A consumer's subscriptions: the descriptors held at namespace level
    and, separately, those held at service level.  Each is a set, kept as
    a list without duplicates. *)
Record Subscription : Type := mkSubscription {
  namespaceLevel : list (Scope * NotificationDescriptor);
  serviceLevel : list (Scope * NotificationDescriptor)
}.

Definition SubscriptionList : Type := list (Scope * NotificationDescriptor).

(** A consumer's live push channel: whether the connection is still open,
    and the payloads pushed into it so far. *)
Record Channel : Type := mkChannel {
  channelOpen : bool;
  pushed : list string
}.

(** A watermill message, [message.NewMessage(uuid, payload)]. *)
Record Message : Type := NewMessage { UUID : string; Payload : string }.

(** ** The HTTP request and response writer *)

(** What the handlers read from [*http.Request]: the common name of the
    first peer certificate, the body, and the route variables of
    [mux.Vars]. *)
Record Request : Type := mkRequest {
  CommonName : string;
  Body : string;
  Vars : gmap string string
}.

(** Indexing a Go map with a missing key gives the zero value. *)
Definition mux_var (r : Request) (k : string) : string :=
  default "" (Vars r !! k).

(** [http.ResponseWriter]: the header map, the status line once it has
    been written ([None] before), the body written so far, and whether the
    connection has failed, in which case [Write] returns an error. *)
Record ResponseWriter : Type := mkResponseWriter {
  Header : gmap string string;
  status : option Z;
  body : string;
  broken : bool
}.

Definition fresh_writer : ResponseWriter := mkResponseWriter ∅ None "" false.

(** [w.Header().Set(k, v)] *)
Definition Header_Set (k v : string) (w : ResponseWriter) : ResponseWriter :=
  mkResponseWriter (<[k := v]> (Header w)) (status w) (body w) (broken w).

(** [w.WriteHeader(code)]: the first call fixes the status line; net/http
    ignores every later call (it only logs it as superfluous). *)
Definition WriteHeader (code : Z) (w : ResponseWriter) : ResponseWriter :=
  match status w with
  | Some _ => w
  | None => mkResponseWriter (Header w) (Some code) (body w) (broken w)
  end.

(** [w.Write(data)]: writes the status line 200 first when none has been
    written, then the data; fails on a failed connection. *)
Definition Write (data : string) (w : ResponseWriter)
  : ResponseWriter * option Error :=
  let w1 := WriteHeader StatusOK w in
  if broken w1 then (w1, Some WriteFailure)
  else (mkResponseWriter (Header w1) (status w1) (body w1 ++ data) false,
        None).

Definition newline : string := String (ascii_of_nat 10) EmptyString.

(** [json.NewEncoder(w).Encode(v)], given the outcome of marshaling [v]:
    a marshaling error is returned before anything is written; otherwise
    the encoding is written, followed by a newline. *)
Definition Encoder_Encode (marshaled : result string) (w : ResponseWriter)
  : ResponseWriter * option Error :=
  match marshaled with
  | Err e => (w, Some e)
  | Ok data => Write (data ++ newline) w
  end.

Definition content_type (w : ResponseWriter) : ResponseWriter :=
  Header_Set "Content-Type" "application/json; charset=UTF-8" w.

(** ** External collaborators *)

(** What the package uses but does not define: encoding/json on the types
    above, and the message bus behind [MsgBrokerCtx] with its well-known
    topic.  [publish] acts on the state of the bus only. *)
Class External : Type := {
  BrokerState : Type;
  servicesTopic : string;
  publish : string -> string -> Message -> BrokerState ->
            BrokerState * option Error;
  json_Marshal : ServiceMsg -> result string;
  json_Marshal_ServiceList : ServiceList -> result string;
  json_Marshal_SubscriptionList : SubscriptionList -> result string;
  json_Decode_Service : string -> result Service;
  json_Decode_Notification : string -> result NotificationFromProducer;
  json_Decode_Descriptors : string -> result (list NotificationDescriptor)
}.

Section Broker.

Context `{External}.

(** Modelled from the spec: the declaration of [Context] is not under src/.
    The shared broker state: the service registry (a map that is [nil]
    until it is initialised), the subscription index, the live channels of
    the connected consumers, and the message bus.  Registry and index are
    keyed by the canonical string of a URN. *)
Record Context : Type := mkContext {
  serviceInfo : option (gmap string Service);
  subscriptionInfo : gmap string Subscription;
  consumerConnections : gmap string Channel;
  MsgBrokerCtx : BrokerState
}.

Definition set_subscriptionInfo (idx : gmap string Subscription)
    (c : Context) : Context :=
  mkContext (serviceInfo c) idx (consumerConnections c) (MsgBrokerCtx c).

Definition set_consumerConnections (conns : gmap string Channel)
    (c : Context) : Context :=
  mkContext (serviceInfo c) (subscriptionInfo c) conns (MsgBrokerCtx c).

Definition set_MsgBrokerCtx (b : BrokerState) (c : Context) : Context :=
  mkContext (serviceInfo c) (subscriptionInfo c) (consumerConnections c) b.

(** [eaaCtx.MsgBrokerCtx.publish(publisher, topic, msg)] *)
Definition Context_publish (publisher topic : string) (msg : Message)
    (c : Context) : Context * option Error :=
  let '(b, err) := publish publisher topic msg (MsgBrokerCtx c) in
  (set_MsgBrokerCtx b c, err).

(** *** Service registry *)

(** Modelled from the spec: [isServicePresent] is not under src/.  The
    optimistic local check [Exists]: whether the registry of this instance
    holds a service under the URN of the common name. *)
Definition isServicePresent (commonName : string) (eaaCtx : Context) : bool :=
  match serviceInfo eaaCtx, CommonNameStringToURN commonName with
  | Some registry, Ok urn => bool_decide (is_Some (registry !! URN_String urn))
  | _, _ => false
  end.

(** *** Subscription index *)

Definition has_descriptor (sc : Scope) (d : NotificationDescriptor)
    (l : list (Scope * NotificationDescriptor)) : bool :=
  existsb (fun e => scope_eqb sc (fst e) && same_descriptor d (snd e)) l.

(** Adding a descriptor that the set already holds changes nothing. *)
Definition add_descriptor (sc : Scope)
    (l : list (Scope * NotificationDescriptor))
    (d : NotificationDescriptor) : list (Scope * NotificationDescriptor) :=
  if has_descriptor sc d l then l else (l ++ [(sc, d)])%list.

(** Removing a descriptor that the set does not hold changes nothing. *)
Definition remove_descriptor (sc : Scope)
    (l : list (Scope * NotificationDescriptor))
    (d : NotificationDescriptor) : list (Scope * NotificationDescriptor) :=
  List.filter
    (fun e => negb (scope_eqb sc (fst e) && same_descriptor d (snd e))) l.

Definition empty_Subscription : Subscription := mkSubscription [] [].

Definition is_empty_Subscription (s : Subscription) : bool :=
  match namespaceLevel s, serviceLevel s with
  | [], [] => true
  | _, _ => false
  end.

Definition consumer_subscription (key : string)
    (idx : gmap string Subscription) : Subscription :=
  default empty_Subscription (idx !! key).

(** A consumer whose combined subscription set is empty has no entry. *)
Definition store_subscription (key : string) (s : Subscription)
    (idx : gmap string Subscription) : gmap string Subscription :=
  if is_empty_Subscription s then delete key idx else <[key := s]> idx.

Definition update_namespaceLevel
    (f : list (Scope * NotificationDescriptor) ->
         list (Scope * NotificationDescriptor))
    (s : Subscription) : Subscription :=
  mkSubscription (f (namespaceLevel s)) (serviceLevel s).

Definition update_serviceLevel
    (f : list (Scope * NotificationDescriptor) ->
         list (Scope * NotificationDescriptor))
    (s : Subscription) : Subscription :=
  mkSubscription (namespaceLevel s) (f (serviceLevel s)).

(** The shape shared by the four add and remove operations: resolve the
    identity, edit the consumer's entry, store it back. *)
Definition edit_subscription (commonName : string)
    (edit : Subscription -> Subscription) (success : Z) (eaaCtx : Context)
  : (Z * option Error) * Context :=
  match CommonNameStringToURN commonName with
  | Err e => ((StatusInternalServerError, Some e), eaaCtx)
  | Ok urn =>
      let key := URN_String urn in
      let idx := subscriptionInfo eaaCtx in
      let s := edit (consumer_subscription key idx) in
      ((success, None),
       set_subscriptionInfo (store_subscription key s idx) eaaCtx)
  end.

(** Modelled from the spec: [addSubscriptionToNamespace]
    ([AddNamespaceSubscription]) is not under src/.  It merges the
    descriptors into the consumer's namespace-level set for the namespace
    and returns a success status; a duplicate is a no-op. *)
Definition addSubscriptionToNamespace (commonName namespace : string)
    (sub : list NotificationDescriptor) (eaaCtx : Context)
  : (Z * option Error) * Context :=
  edit_subscription commonName
    (update_namespaceLevel
       (fun l => fold_left (add_descriptor (NamespaceScope namespace)) sub l))
    StatusCreated eaaCtx.

(** Modelled from the spec: [addSubscriptionToService]
    ([AddServiceSubscription]) is not under src/.  As above, for the
    service-level set of one service; the service need not be registered. *)
Definition addSubscriptionToService (commonName namespace id : string)
    (sub : list NotificationDescriptor) (eaaCtx : Context)
  : (Z * option Error) * Context :=
  edit_subscription commonName
    (update_serviceLevel
       (fun l => fold_left (add_descriptor (ServiceScope namespace id)) sub l))
    StatusCreated eaaCtx.

(** Modelled from the spec: [removeSubscriptionToNamespace]
    ([RemoveNamespaceSubscription]) is not under src/. *)
Definition removeSubscriptionToNamespace (commonName namespace : string)
    (sub : list NotificationDescriptor) (eaaCtx : Context)
  : (Z * option Error) * Context :=
  edit_subscription commonName
    (update_namespaceLevel
       (fun l =>
          fold_left (remove_descriptor (NamespaceScope namespace)) sub l))
    StatusNoContent eaaCtx.

(** Modelled from the spec: [removeSubscriptionToService]
    ([RemoveServiceSubscription]) is not under src/. *)
Definition removeSubscriptionToService (commonName namespace id : string)
    (sub : list NotificationDescriptor) (eaaCtx : Context)
  : (Z * option Error) * Context :=
  edit_subscription commonName
    (update_serviceLevel
       (fun l =>
          fold_left (remove_descriptor (ServiceScope namespace id)) sub l))
    StatusNoContent eaaCtx.

(** Modelled from the spec: [removeAllSubscriptions] ([RemoveAll]) is not
    under src/.  It drops both sets of the consumer and succeeds also when
    the consumer had none. *)
Definition removeAllSubscriptions (commonName : string) (eaaCtx : Context)
  : (Z * option Error) * Context :=
  edit_subscription commonName (fun _ => empty_Subscription)
    StatusNoContent eaaCtx.

(** Modelled from the spec: [getConsumerSubscriptions] ([GetSubscriptions]
    of the index) is not under src/.  It returns the union of the
    consumer's namespace-level and service-level descriptors. *)
Definition getConsumerSubscriptions (commonName : string) (eaaCtx : Context)
  : result SubscriptionList :=
  match CommonNameStringToURN commonName with
  | Err e => Err e
  | Ok urn =>
      let s := consumer_subscription (URN_String urn)
                 (subscriptionInfo eaaCtx) in
      Ok (namespaceLevel s ++ serviceLevel s)%list
  end.

(** *** Notification delivery *)

Definition subscribed_to (producer : URN) (d : NotificationDescriptor)
    (s : Subscription) : bool :=
  has_descriptor (NamespaceScope (Namespace producer)) d (namespaceLevel s)
  || has_descriptor (ServiceScope (Namespace producer) (ID producer)) d
       (serviceLevel s).

(** Modelled from the spec: [MatchSubscribers] is not under src/.  The
    consumers whose namespace-level set holds the descriptor for the
    producer's namespace, or whose service-level set holds it for the
    producer's namespace and id. *)
Definition MatchSubscribers (producer : URN) (d : NotificationDescriptor)
    (idx : gmap string Subscription) : list string :=
  map fst
    (List.filter (fun e => subscribed_to producer d (snd e))
       (map_to_list idx)).

(** One best-effort push into a consumer's live channel.  A missing or
    closed channel is a delivery failure: it is recorded and delivery goes
    on with the next consumer. *)
Definition push_one (payload : string)
    (acc : gmap string Channel * list string) (consumer : string)
  : gmap string Channel * list string :=
  let '(conns, failed) := acc in
  match conns !! consumer with
  | Some ch =>
      if channelOpen ch
      then (<[consumer := mkChannel true (pushed ch ++ [payload])%list]> conns,
            failed)
      else (conns, (failed ++ [consumer])%list)
  | None => (conns, (failed ++ [consumer])%list)
  end.

(** A consumer that cannot be reached: no live channel, or a closed one. *)
Definition unreachable (conns : gmap string Channel) (consumer : string)
  : Prop :=
  match conns !! consumer with
  | Some ch => channelOpen ch = false
  | None => True
  end.

Definition push_all (payload : string) (consumers : list string)
    (conns : gmap string Channel) : gmap string Channel * list string :=
  fold_left (push_one payload) consumers (conns, []).

(** Modelled from the spec: [sendNotificationToAllSubscribers] ([Deliver])
    is not under src/.  With no matched consumer it returns the
    no-subscribers status; otherwise it attempts one push per matched
    consumer and returns success, whatever the pushes did. *)
Definition sendNotificationToAllSubscribers (commonName : string)
    (notif : NotificationFromProducer) (eaaCtx : Context)
  : (Z * option Error) * Context :=
  match CommonNameStringToURN commonName with
  | Err e => ((StatusInternalServerError, Some e), eaaCtx)
  | Ok urn =>
      match MatchSubscribers urn (Descriptor notif)
              (subscriptionInfo eaaCtx) with
      | [] => ((StatusResetContent, None), eaaCtx)
      | consumers =>
          let '(conns, _) :=
            push_all (NotificationPayload notif) consumers
              (consumerConnections eaaCtx) in
          ((StatusOK, None), set_consumerConnections conns eaaCtx)
      end
  end.

(** ** Registry-change events *)

(** The event a deregister request stands for: a service of which only the
    URN is set. *)
Definition deregister_event (urn : URN) : ServiceMsg :=
  mkServiceMsg (Some (mkService (Some urn) "" "" [])) serviceActionDeregister.

(** The event a register request stands for: the service of the body,
    under the URN of the caller. *)
Definition register_event (urn : URN) (serv : Service) : ServiceMsg :=
  mkServiceMsg
    (Some (mkService (Some urn) (EndpointURI serv) (Description serv)
             (Notifications serv)))
    serviceActionRegister.

(** ** The handlers of api_eaa.go

    A handler takes the response writer, the request and the shared
    context, and returns the writer and the context as it leaves them.
    [GetNotifications] only hands the connection over to the websocket
    upgrade and is not modelled. *)

Definition DeregisterApplication (w : ResponseWriter) (r : Request)
    (eaaCtx : Context) : ResponseWriter * Context :=
  let w := content_type w in
  let commonName := CommonName r in
  match CommonNameStringToURN commonName with
  | Err _ => (WriteHeader StatusInternalServerError w, eaaCtx)
  | Ok URN =>
      let statusCode :=
        if negb (isServicePresent commonName eaaCtx) then StatusNotFound
        else StatusNoContent in
      let serv := set_Service_URN URN zero_Service in
      let svcMsg := mkServiceMsg (Some serv) serviceActionDeregister in
      match json_Marshal svcMsg with
      | Err _ => (WriteHeader StatusInternalServerError w, eaaCtx)
      | Ok data =>
          let msg := NewMessage (URN_String URN) data in
          match Context_publish servicesTopic servicesTopic msg eaaCtx with
          | (eaaCtx, Some _) =>
              (WriteHeader StatusInternalServerError w, eaaCtx)
          | (eaaCtx, None) => (WriteHeader statusCode w, eaaCtx)
          end
      end
  end.

Definition GetServices (w : ResponseWriter) (r : Request)
    (eaaCtx : Context) : ResponseWriter * Context :=
  let w := content_type w in
  let w := WriteHeader StatusOK w in
  match serviceInfo eaaCtx with
  | None => (WriteHeader StatusInternalServerError w, eaaCtx)
  | Some registry =>
      let servList := mkServiceList (map snd (map_to_list registry)) in
      match Encoder_Encode (json_Marshal_ServiceList servList) w with
      | (w, Some _) => (WriteHeader StatusInternalServerError w, eaaCtx)
      | (w, None) => (w, eaaCtx)
      end
  end.

Definition GetSubscriptions (w : ResponseWriter) (r : Request)
    (eaaCtx : Context) : ResponseWriter * Context :=
  let w := content_type w in
  let w := WriteHeader StatusOK w in
  let commonName := CommonName r in
  match getConsumerSubscriptions commonName eaaCtx with
  | Err _ => (WriteHeader StatusInternalServerError w, eaaCtx)
  | Ok subs =>
      match Encoder_Encode (json_Marshal_SubscriptionList subs) w with
      | (w, Some _) => (WriteHeader StatusInternalServerError w, eaaCtx)
      | (w, None) => (w, eaaCtx)
      end
  end.

Definition PushNotificationToSubscribers (w : ResponseWriter) (r : Request)
    (eaaCtx : Context) : ResponseWriter * Context :=
  let w := content_type w in
  let commonName := CommonName r in
  match json_Decode_Notification (Body r) with
  | Err _ => (WriteHeader StatusInternalServerError w, eaaCtx)
  | Ok notif =>
      let '((statCode, _), eaaCtx) :=
        sendNotificationToAllSubscribers commonName notif eaaCtx in
      (WriteHeader statCode w, eaaCtx)
  end.

Definition RegisterApplication (w : ResponseWriter) (r : Request)
    (eaaCtx : Context) : ResponseWriter * Context :=
  let w := content_type w in
  let commonName := CommonName r in
  match json_Decode_Service (Body r) with
  | Err _ => (WriteHeader StatusInternalServerError w, eaaCtx)
  | Ok serv =>
      match CommonNameStringToURN commonName with
      | Err _ => (WriteHeader StatusInternalServerError w, eaaCtx)
      | Ok URN =>
          let serv := set_Service_URN URN serv in
          let svcMsg := mkServiceMsg (Some serv) serviceActionRegister in
          match json_Marshal svcMsg with
          | Err _ => (WriteHeader StatusInternalServerError w, eaaCtx)
          | Ok data =>
              let msg := NewMessage commonName data in
              match Context_publish servicesTopic servicesTopic msg
                      eaaCtx with
              | (eaaCtx, Some _) =>
                  (WriteHeader StatusInternalServerError w, eaaCtx)
              | (eaaCtx, None) => (WriteHeader StatusOK w, eaaCtx)
              end
          end
      end
  end.

Definition SubscribeNamespaceNotifications (w : ResponseWriter)
    (r : Request) (eaaCtx : Context) : ResponseWriter * Context :=
  let w := content_type w in
  match json_Decode_Descriptors (Body r) with
  | Err _ => (WriteHeader StatusInternalServerError w, eaaCtx)
  | Ok sub =>
      let commonName := CommonName r in
      let '((statCode, _), eaaCtx) :=
        addSubscriptionToNamespace commonName (mux_var r "urn.namespace")
          sub eaaCtx in
      (WriteHeader statCode w, eaaCtx)
  end.

Definition SubscribeServiceNotifications (w : ResponseWriter)
    (r : Request) (eaaCtx : Context) : ResponseWriter * Context :=
  let w := content_type w in
  match json_Decode_Descriptors (Body r) with
  | Err _ => (WriteHeader StatusInternalServerError w, eaaCtx)
  | Ok sub =>
      let commonName := CommonName r in
      let '((statCode, _), eaaCtx) :=
        addSubscriptionToService commonName (mux_var r "urn.namespace")
          (mux_var r "urn.id") sub eaaCtx in
      (WriteHeader statCode w, eaaCtx)
  end.

Definition UnsubscribeAllNotifications (w : ResponseWriter) (r : Request)
    (eaaCtx : Context) : ResponseWriter * Context :=
  let w := content_type w in
  let commonName := CommonName r in
  let '((statCode, _), eaaCtx) := removeAllSubscriptions commonName eaaCtx in
  (WriteHeader statCode w, eaaCtx).

Definition UnsubscribeNamespaceNotifications (w : ResponseWriter)
    (r : Request) (eaaCtx : Context) : ResponseWriter * Context :=
  let w := content_type w in
  match json_Decode_Descriptors (Body r) with
  | Err _ => (WriteHeader StatusInternalServerError w, eaaCtx)
  | Ok sub =>
      let commonName := CommonName r in
      let '((statCode, _), eaaCtx) :=
        removeSubscriptionToNamespace commonName (mux_var r "urn.namespace")
          sub eaaCtx in
      (WriteHeader statCode w, eaaCtx)
  end.

Definition UnsubscribeServiceNotifications (w : ResponseWriter)
    (r : Request) (eaaCtx : Context) : ResponseWriter * Context :=
  let w := content_type w in
  match json_Decode_Descriptors (Body r) with
  | Err _ => (WriteHeader StatusInternalServerError w, eaaCtx)
  | Ok sub =>
      let commonName := CommonName r in
      let '((statCode, _), eaaCtx) :=
        removeSubscriptionToService commonName (mux_var r "urn.namespace")
          (mux_var r "urn.id") sub eaaCtx in
      (WriteHeader statCode w, eaaCtx)
  end.

End Broker.

(** ** A bounded in-memory bus and a small codec

    Stand-ins for the external collaborators, used to run the handlers on
    concrete requests.  The bus accepts messages until its capacity is
    used up and refuses them afterwards.  The codec rejects an empty body,
    as encoding/json does, and reads any other body as a name. *)

Record TestBus : Type := mkTestBus {
  capacity : nat;
  queue : list (string * Message)
}.

Definition test_publish (publisher topic : string) (msg : Message)
    (b : TestBus) : TestBus * option Error :=
  match capacity b with
  | O => (b, Some PublishFailure)
  | S n => (mkTestBus n (queue b ++ [(topic, msg)])%list, None)
  end.

Definition render_urn (u : option URN) : string :=
  match u with
  | Some u => URN_String u
  | None => "null"
  end.

Definition render_Service (s : Service) : string :=
  "{" ++ render_urn (Service_URN s) ++ "," ++ EndpointURI s ++ ","
      ++ Description s ++ "}".

Definition render_ServiceMsg (m : ServiceMsg) : string :=
  match Action m with
  | serviceActionRegister => "register:"
  | serviceActionDeregister => "deregister:"
  end ++ match Svc m with
         | Some s => render_Service s
         | None => "null"
         end.

Definition render_scoped (e : Scope * NotificationDescriptor) : string :=
  match fst e with
  | NamespaceScope ns => ns
  | ServiceScope ns id => ns ++ "." ++ id
  end ++ "/" ++ Name (snd e) ++ "@" ++ Version (snd e).

Definition test_decode {A : Type} (f : string -> A) (body : string)
  : result A :=
  if is_empty body then Err EncodingFailure else Ok (f body).

Definition test_External : External := {|
  BrokerState := TestBus;
  servicesTopic := "services";
  publish := test_publish;
  json_Marshal := fun m => Ok (render_ServiceMsg m);
  json_Marshal_ServiceList :=
    fun l => Ok (String.concat ";" (map render_Service (Services l)));
  json_Marshal_SubscriptionList :=
    fun l => Ok (String.concat ";" (map render_scoped l));
  json_Decode_Service := test_decode (fun b => mkService None b "" []);
  json_Decode_Notification :=
    test_decode (fun b => mkNotification (mkDescriptor b "1" []) b);
  json_Decode_Descriptors := test_decode (fun b => [mkDescriptor b "1" []])
|}.

(** ** Sample requests and contexts *)

Definition shop_catalog : URN := mkURN "shop" "catalog".
Definition shop_cart : URN := mkURN "shop" "cart".

Definition price_update : NotificationDescriptor :=
  mkDescriptor "price-update" "1" [].

Definition catalog_service : Service :=
  mkService (Some shop_catalog) "https://catalog.shop" "catalogue" [].

(** A producer's request; the body names the descriptor [price-update]
    under the small codec. *)
Definition catalog_request : Request :=
  mkRequest "shop.catalog" "price-update" ∅.

(** The same producer publishing a descriptor nobody subscribed to. *)
Definition stockout_request : Request :=
  mkRequest "shop.catalog" "stock-out" ∅.

(** A producer whose common name carries a suffix behind the id. *)
Definition suffixed_request : Request :=
  mkRequest "shop.catalog.eu" "price-update" ∅.

(** A consumer's request for the service [shop.catalog]. *)
Definition cart_request : Request :=
  mkRequest "shop.cart" "price-update"
    {[ "urn.namespace" := "shop"; "urn.id" := "catalog" ]}.

(** A request whose body is empty and does not decode. *)
Definition empty_request : Request :=
  mkRequest "shop.cart" ""
    {[ "urn.namespace" := "shop"; "urn.id" := "catalog" ]}.

Definition cart_subscription : Subscription :=
  mkSubscription [] [(ServiceScope "shop" "catalog", price_update)].

(** The catalogue is registered, the cart is subscribed to it but has no
    live channel, and the bus accepts [n] more messages. *)
Definition sample_context (n : nat) : @Context test_External :=
  @mkContext test_External
    (Some {[ "shop.catalog" := catalog_service ]})
    {[ "shop.cart" := cart_subscription ]}
    ∅
    (mkTestBus n []).

(** The same with an empty, initialised registry. *)
Definition empty_registry_context (n : nat) : @Context test_External :=
  @mkContext test_External (Some ∅) {[ "shop.cart" := cart_subscription ]} ∅
    (mkTestBus n []).

(** The same before the registry is initialised. *)
Definition nil_registry_context : @Context test_External :=
  @mkContext test_External None ∅ ∅ (mkTestBus 1 []).

(** A writer whose connection has failed. *)
Definition broken_writer : ResponseWriter := mkResponseWriter ∅ None "" true.

(** ** The handlers as a table, and [GetNotifications] *)

Section Handlers.

Context `{External}.

Definition Handler : Type :=
  ResponseWriter -> Request -> Context -> ResponseWriter * Context.

(** The handlers modelled above, in the order of the file. *)
Definition api_handlers : list Handler :=
  [ DeregisterApplication; GetServices; GetSubscriptions;
    PushNotificationToSubscribers; RegisterApplication;
    SubscribeNamespaceNotifications; SubscribeServiceNotifications;
    UnsubscribeAllNotifications; UnsubscribeNamespaceNotifications;
    UnsubscribeServiceNotifications ].

(** The handlers in which no encoder is given the writer. *)
Definition bodiless_handlers : list Handler :=
  [ DeregisterApplication; PushNotificationToSubscribers;
    RegisterApplication; SubscribeNamespaceNotifications;
    SubscribeServiceNotifications; UnsubscribeAllNotifications;
    UnsubscribeNamespaceNotifications; UnsubscribeServiceNotifications ].

(** [createWsConn] is not under src/ and is taken as a parameter: it is
    given the writer and the request, reaches the shared context through
    the request, and returns a status code and an error. *)
Variable createWsConn :
  ResponseWriter -> Request -> Context ->
  (Z * option Error) * (ResponseWriter * Context).

(** [GetNotifications]: the branch for an uninitialised registry writes
    500 and does not return; the connection is attempted in every case. *)
Definition GetNotifications (w : ResponseWriter) (r : Request)
    (eaaCtx : Context) : ResponseWriter * Context :=
  let w :=
    match serviceInfo eaaCtx with
    | None => WriteHeader StatusInternalServerError (content_type w)
    | Some _ => w
    end in
  let '((statCode, err), (w, eaaCtx)) := createWsConn w r eaaCtx in
  match err with
  | Some _ =>
      if negb (Z.eqb statCode 0)
      then (WriteHeader statCode (content_type w), eaaCtx)
      else (w, eaaCtx)
  | None => (w, eaaCtx)
  end.

End Handlers.

(** ** More stand-ins and sample requests *)

Definition StatusUnauthorized : Z := 401.

(** A connection maker that never touches the writer: it opens a channel
    for a caller whose identity resolves, reports 401 for one whose
    identity does not, and reports an error with status code 0 for a
    caller without a common name. *)
Definition test_createWsConn (w : ResponseWriter) (r : Request)
    (eaaCtx : @Context test_External)
  : (Z * option Error) * (ResponseWriter * @Context test_External) :=
  if is_empty (CommonName r) then ((0, Some InvalidIdentity), (w, eaaCtx))
  else
    match CommonNameStringToURN (CommonName r) with
    | Err e => ((StatusUnauthorized, Some e), (w, eaaCtx))
    | Ok urn =>
        ((0, None),
         (w, set_consumerConnections
               (<[URN_String urn := mkChannel true []]>
                  (consumerConnections eaaCtx)) eaaCtx))
    end.

(** The small codec, except that the body of a register request is read
    as the URN the service claims for itself. *)
Definition claiming_External : External := {|
  BrokerState := TestBus;
  servicesTopic := "services";
  publish := test_publish;
  json_Marshal := fun m => Ok (render_ServiceMsg m);
  json_Marshal_ServiceList :=
    fun l => Ok (String.concat ";" (map render_Service (Services l)));
  json_Marshal_SubscriptionList :=
    fun l => Ok (String.concat ";" (map render_scoped l));
  json_Decode_Service :=
    test_decode
      (fun b => mkService
                  match CommonNameStringToURN b with
                  | Ok u => Some u
                  | Err _ => None
                  end "" "" []);
  json_Decode_Notification :=
    test_decode (fun b => mkNotification (mkDescriptor b "1" []) b);
  json_Decode_Descriptors := test_decode (fun b => [mkDescriptor b "1" []])
|}.

(** A codec that cannot marshal anything. *)
Definition unmarshalable_External : External := {|
  BrokerState := TestBus;
  servicesTopic := "services";
  publish := test_publish;
  json_Marshal := fun _ => Err EncodingFailure;
  json_Marshal_ServiceList := fun _ => Err EncodingFailure;
  json_Marshal_SubscriptionList := fun _ => Err EncodingFailure;
  json_Decode_Service := test_decode (fun b => mkService None b "" []);
  json_Decode_Notification :=
    test_decode (fun b => mkNotification (mkDescriptor b "1" []) b);
  json_Decode_Descriptors := test_decode (fun b => [mkDescriptor b "1" []])
|}.

(** A caller whose common name has no dot. *)
Definition nobody_request : Request := mkRequest "nobody" "price-update" ∅.

(** A caller whose certificate has an empty common name. *)
Definition nameless_request : Request := mkRequest "" "price-update" ∅.

(** A producer with an empty body. *)
Definition empty_catalog_request : Request := mkRequest "shop.catalog" "" ∅.

(** The catalogue claiming, in the body, to be the cart. *)
Definition claiming_request : Request :=
  mkRequest "shop.catalog" "shop.cart" ∅.

(** The catalogue claiming nothing the codec can read as a URN. *)
Definition unclaiming_request : Request :=
  mkRequest "shop.catalog" "nothing" ∅.

Definition claiming_context (n : nat) : @Context claiming_External :=
  @mkContext claiming_External (Some ∅) ∅ ∅ (mkTestBus n []).

Definition unmarshalable_context : @Context unmarshalable_External :=
  @mkContext unmarshalable_External
    (Some {[ "shop.catalog" := catalog_service ]})
    {[ "shop.cart" := cart_subscription ]}
    ∅
    (mkTestBus 1 []).

(** A writer to which an earlier layer has already answered 401. *)
Definition answered_writer : ResponseWriter :=
  mkResponseWriter ∅ (Some StatusUnauthorized) "" false.

(** ** Splitting lemmas *)

Lemma split_dot_nonempty (s : string) : split_dot s <> [].
Proof.
  destruct s as [|c rest]; simpl; [discriminate|].
  destruct (is_dot c); [discriminate|].
  destruct (split_dot rest); discriminate.
Qed.

Lemma split_dot_dotless (s : string) :
  dotless s = true -> split_dot s = [s].
Proof.
  induction s as [|c rest IH]; simpl; [reflexivity|].
  intros H. apply andb_prop in H as [Hc Hrest].
  apply negb_true_iff in Hc. rewrite Hc, (IH Hrest). reflexivity.
Qed.

Lemma split_dot_app (a b : string) :
  dotless a = true ->
  split_dot (a ++ "." ++ b) = a :: split_dot b.
Proof.
  induction a as [|c rest IH]; simpl; [reflexivity|].
  intros H. apply andb_prop in H as [Hc Hrest].
  apply negb_true_iff in Hc. rewrite Hc.
  change (rest ++ String "." b)%string with (rest ++ "." ++ b)%string.
  rewrite (IH Hrest). reflexivity.
Qed.

Lemma parse_valid (ns id : string) :
  is_empty ns = false -> is_empty id = false ->
  dotless ns = true -> dotless id = true ->
  CommonNameStringToURN (ns ++ "." ++ id) = Ok (mkURN ns id).
Proof.
  intros Hns Hid Dns Did. unfold CommonNameStringToURN.
  rewrite (split_dot_app _ _ Dns), (split_dot_dotless _ Did).
  rewrite Hns, Hid. reflexivity.
Qed.

Lemma parse_malformed (s : string) :
  malformed s -> CommonNameStringToURN s = Err InvalidIdentity.
Proof.
  intros H. unfold CommonNameStringToURN.
  destruct H as [s D | rest | ns D | ns rest D].
  - rewrite (split_dot_dotless _ D). reflexivity.
  - change ("." ++ rest)%string with (String "." rest).
    simpl. destruct (split_dot rest); reflexivity.
  - change (ns ++ ".")%string with (ns ++ "." ++ "")%string.
    rewrite (split_dot_app _ _ D). simpl.
    rewrite orb_true_r. reflexivity.
  - change (ns ++ ".." ++ rest)%string with (ns ++ "." ++ ("." ++ rest))%string.
    rewrite (split_dot_app _ _ D). simpl.
    rewrite orb_true_r. reflexivity.
Qed.

(** C4: on common names of the [namespace.id] shape identity parsing is
    total (it returns the URN of the two parts), deterministic and
    injective, and every malformed common name (no dot, empty namespace,
    empty id) fails with [InvalidIdentity]. *)
Theorem parse_identity_total_injective :
  (forall ns id : string,
      is_empty ns = false -> is_empty id = false ->
      dotless ns = true -> dotless id = true ->
      CommonNameStringToURN (ns ++ "." ++ id) = Ok (mkURN ns id)) /\
  (forall cn : string, valid_shape cn ->
      exists u : URN, CommonNameStringToURN cn = Ok u /\ URN_String u = cn) /\
  (forall (cn : string) (r1 r2 : result URN),
      CommonNameStringToURN cn = r1 -> CommonNameStringToURN cn = r2 ->
      r1 = r2) /\
  (forall cn1 cn2 : string, valid_shape cn1 -> valid_shape cn2 ->
      CommonNameStringToURN cn1 = CommonNameStringToURN cn2 -> cn1 = cn2) /\
  (forall cn : string, malformed cn ->
      CommonNameStringToURN cn = Err InvalidIdentity).
Proof.
  split; [exact parse_valid|].
  split.
  { intros cn (ns & id & Hns & Hid & Dns & Did & ->).
    exists (mkURN ns id). split; [|reflexivity].
    apply parse_valid; assumption. }
  split; [congruence|].
  split; [|exact parse_malformed].
  intros cn1 cn2 (ns1 & id1 & Hns1 & Hid1 & Dns1 & Did1 & ->)
                 (ns2 & id2 & Hns2 & Hid2 & Dns2 & Did2 & ->).
  rewrite !parse_valid by assumption.
  intros [= -> ->]. reflexivity.
Qed.
(** * Properties *)

Section Properties.

Context `{External}.

Implicit Types (w : ResponseWriter) (r : Request) (eaaCtx : Context).

(** ** The response writer *)

Lemma status_Header_Set k v w : status (Header_Set k v w) = status w.
Proof. reflexivity. Qed.

Lemma status_content_type w : status (content_type w) = status w.
Proof. reflexivity. Qed.

Lemma status_WriteHeader_fresh code w :
  status w = None -> status (WriteHeader code w) = Some code.
Proof. intros Hw. unfold WriteHeader. rewrite Hw. reflexivity. Qed.

(** Once a status line is written, no later [WriteHeader] changes it. *)
Lemma WriteHeader_superfluous code code' w :
  status w = Some code -> WriteHeader code' w = w.
Proof. intros Hw. unfold WriteHeader. rewrite Hw. reflexivity. Qed.

Lemma status_Write code data w :
  status w = Some code -> status (fst (Write data w)) = Some code.
Proof.
  intros Hw. unfold Write.
  rewrite (WriteHeader_superfluous _ _ _ Hw).
  destruct (broken w); simpl; assumption.
Qed.

Lemma status_Encoder_Encode code m w :
  status w = Some code -> status (fst (Encoder_Encode m w)) = Some code.
Proof.
  intros Hw. destruct m as [data|e]; simpl; [|assumption].
  apply status_Write; assumption.
Qed.

Lemma Write_ok data w :
  status w = Some StatusOK -> broken w = false ->
  Write data w =
  (mkResponseWriter (Header w) (Some StatusOK) (body w ++ data) false, None).
Proof.
  intros Hw Hb. unfold Write.
  rewrite (WriteHeader_superfluous _ _ _ Hw), Hb, Hw. reflexivity.
Qed.

(** ** [GetServices] and [GetSubscriptions]: the status line *)

Lemma GetServices_status w r eaaCtx :
  status w = None -> status (fst (GetServices w r eaaCtx)) = Some StatusOK.
Proof.
  intros Hw. unfold GetServices.
  assert (Hok : status (WriteHeader StatusOK (content_type w)) = Some StatusOK)
    by (apply status_WriteHeader_fresh; assumption).
  destruct (serviceInfo eaaCtx) as [registry|]; simpl.
  - pose proof (status_Encoder_Encode StatusOK
                  (json_Marshal_ServiceList
                     (mkServiceList (map snd (map_to_list registry))))
                  _ Hok) as Henc.
    destruct (Encoder_Encode _ _) as [w' [e|]]; simpl in *; [|assumption].
    rewrite (WriteHeader_superfluous _ _ _ Henc). assumption.
  - rewrite (WriteHeader_superfluous _ _ _ Hok). assumption.
Qed.

Lemma GetSubscriptions_status w r eaaCtx :
  status w = None ->
  status (fst (GetSubscriptions w r eaaCtx)) = Some StatusOK.
Proof.
  intros Hw. unfold GetSubscriptions.
  assert (Hok : status (WriteHeader StatusOK (content_type w)) = Some StatusOK)
    by (apply status_WriteHeader_fresh; assumption).
  destruct (getConsumerSubscriptions _ _) as [subs|e]; simpl.
  - pose proof (status_Encoder_Encode StatusOK
                  (json_Marshal_SubscriptionList subs) _ Hok) as Henc.
    destruct (Encoder_Encode _ _) as [w' [e|]]; simpl in *; [|assumption].
    rewrite (WriteHeader_superfluous _ _ _ Henc). assumption.
  - rewrite (WriteHeader_superfluous _ _ _ Hok). assumption.
Qed.

(** C8: [GetServices] writes the status line 200 before it looks at the
    registry or encodes the answer, so the status of every response is
    200: also when the registry is nil and when encoding fails, where the
    later write of 500 changes nothing. *)
Theorem GetServices_always_200 w r eaaCtx :
  status w = None ->
  status (fst (GetServices w r eaaCtx)) = Some StatusOK /\
  (serviceInfo eaaCtx = None ->
   fst (GetServices w r eaaCtx) = WriteHeader StatusOK (content_type w)) /\
  (forall registry w' e,
     serviceInfo eaaCtx = Some registry ->
     Encoder_Encode
       (json_Marshal_ServiceList
          (mkServiceList (map snd (map_to_list registry))))
       (WriteHeader StatusOK (content_type w)) = (w', Some e) ->
     fst (GetServices w r eaaCtx) = w' /\ status w' = Some StatusOK).
Proof.
  intros Hw.
  assert (Hok : status (WriteHeader StatusOK (content_type w)) = Some StatusOK)
    by (apply status_WriteHeader_fresh; assumption).
  split; [apply GetServices_status; assumption|].
  split.
  - intros Hnil. unfold GetServices. rewrite Hnil. simpl.
    apply (WriteHeader_superfluous _ _ _ Hok).
  - intros registry w' e Hreg Henc.
    pose proof (status_Encoder_Encode StatusOK
                  (json_Marshal_ServiceList
                     (mkServiceList (map snd (map_to_list registry))))
                  _ Hok) as Hst.
    rewrite Henc in Hst. simpl in Hst.
    unfold GetServices. rewrite Hreg. simpl. rewrite Henc. simpl.
    split; [|assumption].
    apply (WriteHeader_superfluous _ _ _ Hst).
Qed.

(** C7: when encoding the answer fails, [GetServices] and
    [GetSubscriptions] have already written the status line 200, and the
    response keeps it: the caller is not given the internal-error status. *)
Theorem encoding_failure_answers_200 w r eaaCtx :
  status w = None ->
  (forall registry,
     serviceInfo eaaCtx = Some registry ->
     is_Some (snd (Encoder_Encode
                (json_Marshal_ServiceList
                   (mkServiceList (map snd (map_to_list registry))))
                (WriteHeader StatusOK (content_type w)))) ->
     status (fst (GetServices w r eaaCtx)) = Some StatusOK /\
     status (fst (GetServices w r eaaCtx))
       <> Some StatusInternalServerError) /\
  (forall subs,
     getConsumerSubscriptions (CommonName r) eaaCtx = Ok subs ->
     is_Some (snd (Encoder_Encode (json_Marshal_SubscriptionList subs)
                (WriteHeader StatusOK (content_type w)))) ->
     status (fst (GetSubscriptions w r eaaCtx)) = Some StatusOK /\
     status (fst (GetSubscriptions w r eaaCtx))
       <> Some StatusInternalServerError).
Proof.
  intros Hw. split.
  - intros registry _ _. rewrite (GetServices_status _ _ _ Hw).
    split; [reflexivity|discriminate].
  - intros subs _ _. rewrite (GetSubscriptions_status _ _ _ Hw).
    split; [reflexivity|discriminate].
Qed.

(** ** Bodies that do not decode *)

(** C9: when the body of a subscribe or unsubscribe request does not
    decode, the handler answers 500 and returns the context it was given;
    the response is computed from the writer alone, so the subscription
    index is neither read nor changed. *)
Theorem undecodable_body_leaves_index w r eaaCtx e :
  json_Decode_Descriptors (Body r) = Err e ->
  let answer := (WriteHeader StatusInternalServerError (content_type w),
                 eaaCtx) in
  SubscribeNamespaceNotifications w r eaaCtx = answer /\
  SubscribeServiceNotifications w r eaaCtx = answer /\
  UnsubscribeNamespaceNotifications w r eaaCtx = answer /\
  UnsubscribeServiceNotifications w r eaaCtx = answer /\
  subscriptionInfo (snd answer) = subscriptionInfo eaaCtx /\
  (status w = None ->
   status (fst answer) = Some StatusInternalServerError).
Proof.
  intros Hdec answer.
  unfold SubscribeNamespaceNotifications, SubscribeServiceNotifications,
    UnsubscribeNamespaceNotifications, UnsubscribeServiceNotifications.
  rewrite Hdec. repeat split.
  intros Hw. apply status_WriteHeader_fresh. assumption.
Qed.

(** ** Register and deregister *)

Lemma serviceInfo_Context_publish publisher topic msg eaaCtx :
  serviceInfo (fst (Context_publish publisher topic msg eaaCtx))
  = serviceInfo eaaCtx.
Proof.
  unfold Context_publish. destruct (publish _ _ _ _) as [b e]. reflexivity.
Qed.

(** What [DeregisterApplication] does once the identity is resolved and the
    event is marshaled: it publishes, and answers by the outcome. *)
Lemma DeregisterApplication_publish w r eaaCtx urn data :
  CommonNameStringToURN (CommonName r) = Ok urn ->
  json_Marshal (deregister_event urn) = Ok data ->
  DeregisterApplication w r eaaCtx =
  let sent := Context_publish servicesTopic servicesTopic
                (NewMessage (URN_String urn) data) eaaCtx in
  (WriteHeader
     match snd sent with
     | Some _ => StatusInternalServerError
     | None => if isServicePresent (CommonName r) eaaCtx
               then StatusNoContent else StatusNotFound
     end (content_type w),
   fst sent).
Proof.
  intros Hurn Hdata. unfold DeregisterApplication.
  rewrite Hurn.
  change (mkServiceMsg (Some (set_Service_URN urn zero_Service))
            serviceActionDeregister) with (deregister_event urn).
  rewrite Hdata.
  destruct (Context_publish _ _ _ _) as [c [e|]]; simpl; [reflexivity|].
  destruct (isServicePresent _ _); reflexivity.
Qed.

Lemma RegisterApplication_publish w r eaaCtx serv urn data :
  json_Decode_Service (Body r) = Ok serv ->
  CommonNameStringToURN (CommonName r) = Ok urn ->
  json_Marshal (register_event urn serv) = Ok data ->
  RegisterApplication w r eaaCtx =
  let sent := Context_publish servicesTopic servicesTopic
                (NewMessage (CommonName r) data) eaaCtx in
  (WriteHeader
     match snd sent with
     | Some _ => StatusInternalServerError
     | None => StatusOK
     end (content_type w),
   fst sent).
Proof.
  intros Hserv Hurn Hdata. unfold RegisterApplication.
  rewrite Hserv, Hurn.
  change (mkServiceMsg (Some (set_Service_URN urn serv))
            serviceActionRegister) with (register_event urn serv).
  rewrite Hdata.
  destruct (Context_publish _ _ _ _) as [c [e|]]; reflexivity.
Qed.

(** Every answer of the two handlers that is not 500 comes after a publish
    that succeeded. *)
Lemma DeregisterApplication_success w r eaaCtx :
  status w = None ->
  status (fst (DeregisterApplication w r eaaCtx))
    <> Some StatusInternalServerError ->
  exists urn data,
    CommonNameStringToURN (CommonName r) = Ok urn /\
    json_Marshal (deregister_event urn) = Ok data /\
    Context_publish servicesTopic servicesTopic
      (NewMessage (URN_String urn) data) eaaCtx
    = (snd (DeregisterApplication w r eaaCtx), None).
Proof.
  intros Hw Hst.
  assert (H500 : status (WriteHeader StatusInternalServerError
                           (content_type w))
                 = Some StatusInternalServerError)
    by (apply status_WriteHeader_fresh; assumption).
  destruct (CommonNameStringToURN (CommonName r)) as [urn|e] eqn:Hurn.
  - destruct (json_Marshal (deregister_event urn)) as [data|e] eqn:Hdata.
    + exists urn, data. split; [reflexivity|]. split; [assumption|].
      rewrite (DeregisterApplication_publish w r eaaCtx urn data Hurn Hdata)
        in Hst |- *.
      destruct (Context_publish _ _ _ _) as [c [e|]]; simpl in *;
        [contradiction|reflexivity].
    + exfalso. apply Hst. unfold DeregisterApplication. rewrite Hurn.
      change (mkServiceMsg (Some (set_Service_URN urn zero_Service))
                serviceActionDeregister) with (deregister_event urn).
      rewrite Hdata. assumption.
  - exfalso. apply Hst. unfold DeregisterApplication. rewrite Hurn.
    assumption.
Qed.

Lemma RegisterApplication_success w r eaaCtx :
  status w = None ->
  status (fst (RegisterApplication w r eaaCtx))
    <> Some StatusInternalServerError ->
  exists serv urn data,
    json_Decode_Service (Body r) = Ok serv /\
    CommonNameStringToURN (CommonName r) = Ok urn /\
    json_Marshal (register_event urn serv) = Ok data /\
    Context_publish servicesTopic servicesTopic
      (NewMessage (CommonName r) data) eaaCtx
    = (snd (RegisterApplication w r eaaCtx), None).
Proof.
  intros Hw Hst.
  assert (H500 : status (WriteHeader StatusInternalServerError
                           (content_type w))
                 = Some StatusInternalServerError)
    by (apply status_WriteHeader_fresh; assumption).
  destruct (json_Decode_Service (Body r)) as [serv|e] eqn:Hserv.
  - destruct (CommonNameStringToURN (CommonName r)) as [urn|e] eqn:Hurn.
    + destruct (json_Marshal (register_event urn serv)) as [data|e] eqn:Hdata.
      * exists serv, urn, data.
        split; [reflexivity|]. split; [reflexivity|]. split; [assumption|].
        rewrite (RegisterApplication_publish w r eaaCtx serv urn data
                   Hserv Hurn Hdata) in Hst |- *.
        destruct (Context_publish _ _ _ _) as [c [e|]]; simpl in *;
          [contradiction|reflexivity].
      * exfalso. apply Hst. unfold RegisterApplication.
        rewrite Hserv, Hurn.
        change (mkServiceMsg (Some (set_Service_URN urn serv))
                  serviceActionRegister) with (register_event urn serv).
        rewrite Hdata. assumption.
    + exfalso. apply Hst. unfold RegisterApplication.
      rewrite Hserv, Hurn. assumption.
  - exfalso. apply Hst. unfold RegisterApplication. rewrite Hserv.
    assumption.
Qed.

(** Neither handler writes the registry, whatever path it takes. *)
Lemma DeregisterApplication_registry w r eaaCtx :
  serviceInfo (snd (DeregisterApplication w r eaaCtx)) = serviceInfo eaaCtx.
Proof.
  unfold DeregisterApplication.
  destruct (CommonNameStringToURN _) as [urn|]; [|reflexivity].
  destruct (json_Marshal _) as [data|]; [|reflexivity].
  pose proof (serviceInfo_Context_publish servicesTopic servicesTopic
                (NewMessage (URN_String urn) data) eaaCtx) as Hp.
  destruct (Context_publish _ _ _ _) as [c [e|]]; exact Hp.
Qed.

Lemma RegisterApplication_registry w r eaaCtx :
  serviceInfo (snd (RegisterApplication w r eaaCtx)) = serviceInfo eaaCtx.
Proof.
  unfold RegisterApplication.
  destruct (json_Decode_Service _) as [serv|]; [|reflexivity].
  destruct (CommonNameStringToURN _) as [urn|]; [|reflexivity].
  destruct (json_Marshal _) as [data|]; [|reflexivity].
  pose proof (serviceInfo_Context_publish servicesTopic servicesTopic
                (NewMessage (CommonName r) data) eaaCtx) as Hp.
  destruct (Context_publish _ _ _ _) as [c [e|]]; exact Hp.
Qed.

(** C1: a deregister request whose common name parses to a URN publishes
    the deregister event whether or not the service is in the local
    registry; when the bus accepts it the answer is 204 if the service was
    present and 404 if it was absent. *)
Theorem deregister_publishes_regardless w r eaaCtx urn data :
  status w = None ->
  CommonNameStringToURN (CommonName r) = Ok urn ->
  json_Marshal (deregister_event urn) = Ok data ->
  let sent := Context_publish servicesTopic servicesTopic
                (NewMessage (URN_String urn) data) eaaCtx in
  snd (DeregisterApplication w r eaaCtx) = fst sent /\
  (snd sent = None -> isServicePresent (CommonName r) eaaCtx = true ->
   status (fst (DeregisterApplication w r eaaCtx)) = Some StatusNoContent) /\
  (snd sent = None -> isServicePresent (CommonName r) eaaCtx = false ->
   status (fst (DeregisterApplication w r eaaCtx)) = Some StatusNotFound).
Proof.
  intros Hw Hurn Hdata sent.
  rewrite (DeregisterApplication_publish w r eaaCtx urn data Hurn Hdata).
  fold sent. simpl. split; [reflexivity|].
  split; intros -> ->; apply status_WriteHeader_fresh; assumption.
Qed.

(** C2: when the publish of a register or deregister request fails, the
    answer is 500; the request leaves the registry as it was on every
    path; and an answer other than 500 is given only after the publish
    succeeded. *)
Theorem publish_failure_is_internal_error w r eaaCtx :
  status w = None ->
  (forall serv urn data e,
     json_Decode_Service (Body r) = Ok serv ->
     CommonNameStringToURN (CommonName r) = Ok urn ->
     json_Marshal (register_event urn serv) = Ok data ->
     snd (Context_publish servicesTopic servicesTopic
            (NewMessage (CommonName r) data) eaaCtx) = Some e ->
     status (fst (RegisterApplication w r eaaCtx))
     = Some StatusInternalServerError) /\
  (forall urn data e,
     CommonNameStringToURN (CommonName r) = Ok urn ->
     json_Marshal (deregister_event urn) = Ok data ->
     snd (Context_publish servicesTopic servicesTopic
            (NewMessage (URN_String urn) data) eaaCtx) = Some e ->
     status (fst (DeregisterApplication w r eaaCtx))
     = Some StatusInternalServerError) /\
  serviceInfo (snd (RegisterApplication w r eaaCtx)) = serviceInfo eaaCtx /\
  serviceInfo (snd (DeregisterApplication w r eaaCtx)) = serviceInfo eaaCtx /\
  (status (fst (RegisterApplication w r eaaCtx))
     <> Some StatusInternalServerError ->
   status (fst (RegisterApplication w r eaaCtx)) = Some StatusOK /\
   exists serv urn data,
     json_Decode_Service (Body r) = Ok serv /\
     CommonNameStringToURN (CommonName r) = Ok urn /\
     json_Marshal (register_event urn serv) = Ok data /\
     Context_publish servicesTopic servicesTopic
       (NewMessage (CommonName r) data) eaaCtx
     = (snd (RegisterApplication w r eaaCtx), None)) /\
  (status (fst (DeregisterApplication w r eaaCtx))
     <> Some StatusInternalServerError ->
   exists urn data,
     CommonNameStringToURN (CommonName r) = Ok urn /\
     json_Marshal (deregister_event urn) = Ok data /\
     Context_publish servicesTopic servicesTopic
       (NewMessage (URN_String urn) data) eaaCtx
     = (snd (DeregisterApplication w r eaaCtx), None)).
Proof.
  intros Hw.
  split.
  { intros serv urn data e Hserv Hurn Hdata Hfail.
    rewrite (RegisterApplication_publish w r eaaCtx serv urn data
               Hserv Hurn Hdata). simpl. rewrite Hfail.
    apply status_WriteHeader_fresh. assumption. }
  split.
  { intros urn data e Hurn Hdata Hfail.
    rewrite (DeregisterApplication_publish w r eaaCtx urn data Hurn Hdata).
    simpl. rewrite Hfail.
    apply status_WriteHeader_fresh. assumption. }
  split; [apply RegisterApplication_registry|].
  split; [apply DeregisterApplication_registry|].
  split.
  - intros Hst.
    destruct (RegisterApplication_success w r eaaCtx Hw Hst)
      as (serv & urn & data & Hserv & Hurn & Hdata & Hpub).
    split; [|exists serv, urn, data; auto].
    rewrite (RegisterApplication_publish w r eaaCtx serv urn data
               Hserv Hurn Hdata). simpl. rewrite Hpub. simpl.
    apply status_WriteHeader_fresh. assumption.
  - apply DeregisterApplication_success. assumption.
Qed.

(** C10: the event a deregister request publishes carries a service of
    which only the URN, the one derived from the caller's common name, is
    set, and the key of its message is the canonical string of that URN;
    the key of the message of a register request is the common name as it
    came. *)
Theorem deregister_event_carries_urn_only w r eaaCtx urn :
  CommonNameStringToURN (CommonName r) = Ok urn ->
  (forall data,
     json_Marshal (deregister_event urn) = Ok data ->
     exists msg,
       snd (DeregisterApplication w r eaaCtx)
       = fst (Context_publish servicesTopic servicesTopic msg eaaCtx) /\
       UUID msg = URN_String urn /\ Payload msg = data) /\
  (exists serv,
     Svc (deregister_event urn) = Some serv /\
     Action (deregister_event urn) = serviceActionDeregister /\
     Service_URN serv = Some urn /\
     EndpointURI serv = EndpointURI zero_Service /\
     Description serv = Description zero_Service /\
     Notifications serv = Notifications zero_Service) /\
  (forall serv data,
     json_Decode_Service (Body r) = Ok serv ->
     json_Marshal (register_event urn serv) = Ok data ->
     exists msg,
       snd (RegisterApplication w r eaaCtx)
       = fst (Context_publish servicesTopic servicesTopic msg eaaCtx) /\
       UUID msg = CommonName r /\ Payload msg = data).
Proof.
  intros Hurn. split.
  { intros data Hdata. exists (NewMessage (URN_String urn) data).
    rewrite (DeregisterApplication_publish w r eaaCtx urn data Hurn Hdata).
    simpl. repeat split. }
  split.
  { eexists. repeat split. }
  intros serv data Hserv Hdata. exists (NewMessage (CommonName r) data).
  rewrite (RegisterApplication_publish w r eaaCtx serv urn data
             Hserv Hurn Hdata).
  simpl. repeat split.
Qed.

(** ** The subscription index *)

Lemma scope_eqb_refl sc : scope_eqb sc sc = true.
Proof.
  destruct sc as [ns|ns id]; simpl; rewrite ?String.eqb_refl; reflexivity.
Qed.

Lemma same_descriptor_refl d : same_descriptor d d = true.
Proof. unfold same_descriptor. rewrite !String.eqb_refl. reflexivity. Qed.

Lemma has_descriptor_app sc d (l1 l2 : list (Scope * NotificationDescriptor)) :
  has_descriptor sc d (l1 ++ l2)
  = has_descriptor sc d l1 || has_descriptor sc d l2.
Proof. unfold has_descriptor. apply existsb_app. Qed.

Lemma add_descriptor_present sc l d :
  has_descriptor sc d l = true -> add_descriptor sc l d = l.
Proof. intros Hd. unfold add_descriptor. rewrite Hd. reflexivity. Qed.

Lemma has_descriptor_add sc l d :
  has_descriptor sc d (add_descriptor sc l d) = true.
Proof.
  unfold add_descriptor.
  destruct (has_descriptor sc d l) eqn:Hd; [assumption|].
  rewrite has_descriptor_app. simpl.
  rewrite scope_eqb_refl, same_descriptor_refl, orb_true_r. reflexivity.
Qed.

Lemma has_descriptor_add_mono sc sc' l d d' :
  has_descriptor sc d l = true ->
  has_descriptor sc d (add_descriptor sc' l d') = true.
Proof.
  intros Hd. unfold add_descriptor.
  destruct (has_descriptor sc' d' l); [assumption|].
  rewrite has_descriptor_app, Hd. reflexivity.
Qed.

Lemma has_descriptor_fold_mono sc sc' sub l d :
  has_descriptor sc d l = true ->
  has_descriptor sc d (fold_left (add_descriptor sc') sub l) = true.
Proof.
  revert l. induction sub as [|d' sub IH]; intros l Hd; simpl; [assumption|].
  apply IH, has_descriptor_add_mono, Hd.
Qed.

(** After a merge every merged descriptor is held. *)
Lemma has_descriptor_fold sc sub l d :
  In d sub ->
  has_descriptor sc d (fold_left (add_descriptor sc) sub l) = true.
Proof.
  revert l. induction sub as [|d' sub IH]; intros l Hin; simpl;
    [contradiction|].
  destruct Hin as [->|Hin].
  - apply has_descriptor_fold_mono, has_descriptor_add.
  - apply IH, Hin.
Qed.

(** Merging descriptors that are all held changes nothing. *)
Lemma fold_add_descriptor_present sc sub l :
  (forall d, In d sub -> has_descriptor sc d l = true) ->
  fold_left (add_descriptor sc) sub l = l.
Proof.
  induction sub as [|d sub IH]; intros Hall; simpl; [reflexivity|].
  rewrite add_descriptor_present by (apply Hall; left; reflexivity).
  apply IH. intros d' Hd'. apply Hall. right. assumption.
Qed.

Lemma fold_add_descriptor_idempotent sc sub l :
  fold_left (add_descriptor sc) sub (fold_left (add_descriptor sc) sub l)
  = fold_left (add_descriptor sc) sub l.
Proof.
  apply fold_add_descriptor_present. intros d Hd.
  apply has_descriptor_fold, Hd.
Qed.

Lemma consumer_subscription_store key s (idx : gmap string Subscription) :
  consumer_subscription key (store_subscription key s idx) = s.
Proof.
  unfold consumer_subscription, store_subscription.
  destruct (is_empty_Subscription s) eqn:Hs.
  - rewrite lookup_delete_eq. simpl.
    destruct s as [[|e1 l1] [|e2 l2]]; try discriminate. reflexivity.
  - rewrite lookup_insert_eq. reflexivity.
Qed.

Lemma store_subscription_twice key s (idx : gmap string Subscription) :
  store_subscription key s (store_subscription key s idx)
  = store_subscription key s idx.
Proof.
  unfold store_subscription.
  destruct (is_empty_Subscription s).
  - apply delete_delete_eq.
  - apply insert_insert_eq.
Qed.

Lemma store_subscription_other key other s (idx : gmap string Subscription) :
  other <> key ->
  store_subscription key s idx !! other = idx !! other.
Proof.
  intros Hne. unfold store_subscription.
  destruct (is_empty_Subscription s).
  - apply lookup_delete_ne. congruence.
  - apply lookup_insert_ne. congruence.
Qed.

(** An edit that is idempotent on a consumer's entry is idempotent on the
    context, and answers the same both times. *)
Lemma edit_subscription_idempotent commonName edit success eaaCtx :
  (forall s, edit (edit s) = edit s) ->
  edit_subscription commonName edit success
    (snd (edit_subscription commonName edit success eaaCtx))
  = edit_subscription commonName edit success eaaCtx.
Proof.
  intros Hedit. unfold edit_subscription.
  destruct (CommonNameStringToURN commonName) as [urn|e]; [|reflexivity].
  simpl. rewrite consumer_subscription_store, Hedit.
  rewrite store_subscription_twice. reflexivity.
Qed.

Lemma edit_subscription_ext commonName edit1 edit2 success eaaCtx :
  (forall s, edit1 s = edit2 s) ->
  edit_subscription commonName edit1 success eaaCtx
  = edit_subscription commonName edit2 success eaaCtx.
Proof.
  intros Hedit. unfold edit_subscription.
  destruct (CommonNameStringToURN commonName) as [urn|e]; [|reflexivity].
  simpl. rewrite Hedit. reflexivity.
Qed.

Lemma edit_subscription_status commonName edit success eaaCtx urn :
  CommonNameStringToURN commonName = Ok urn ->
  fst (edit_subscription commonName edit success eaaCtx) = (success, None).
Proof. intros Hurn. unfold edit_subscription. rewrite Hurn. reflexivity. Qed.

Lemma addSubscriptionToNamespace_twice commonName namespace sub eaaCtx :
  addSubscriptionToNamespace commonName namespace sub
    (snd (addSubscriptionToNamespace commonName namespace sub eaaCtx))
  = addSubscriptionToNamespace commonName namespace sub eaaCtx.
Proof.
  apply edit_subscription_idempotent. intros [nsl svl].
  unfold update_namespaceLevel. simpl.
  rewrite fold_add_descriptor_idempotent. reflexivity.
Qed.

Lemma addSubscriptionToService_twice commonName namespace id sub eaaCtx :
  addSubscriptionToService commonName namespace id sub
    (snd (addSubscriptionToService commonName namespace id sub eaaCtx))
  = addSubscriptionToService commonName namespace id sub eaaCtx.
Proof.
  apply edit_subscription_idempotent. intros [nsl svl].
  unfold update_serviceLevel. simpl.
  rewrite fold_add_descriptor_idempotent. reflexivity.
Qed.

(** C6: adding the same descriptors a second time under the same scope
    leaves the context, and so the consumer's subscription set, as the
    first add left it, for namespace and for service scope; both adds
    answer with the success status and no error when the identity
    resolves, and a request repeated through the handlers does the same. *)
Theorem duplicate_subscribe_is_noop commonName namespace id sub eaaCtx :
  let once_ns := addSubscriptionToNamespace commonName namespace sub eaaCtx in
  let twice_ns :=
    addSubscriptionToNamespace commonName namespace sub (snd once_ns) in
  let once_svc :=
    addSubscriptionToService commonName namespace id sub eaaCtx in
  let twice_svc :=
    addSubscriptionToService commonName namespace id sub (snd once_svc) in
  snd twice_ns = snd once_ns /\
  snd twice_svc = snd once_svc /\
  addSubscriptionToNamespace commonName namespace (sub ++ sub) eaaCtx
  = once_ns /\
  addSubscriptionToService commonName namespace id (sub ++ sub) eaaCtx
  = once_svc /\
  (forall urn, CommonNameStringToURN commonName = Ok urn ->
     fst once_ns = (StatusCreated, None) /\
     fst twice_ns = (StatusCreated, None) /\
     fst once_svc = (StatusCreated, None) /\
     fst twice_svc = (StatusCreated, None)) /\
  (forall w r,
     CommonName r = commonName ->
     mux_var r "urn.namespace" = namespace ->
     mux_var r "urn.id" = id ->
     json_Decode_Descriptors (Body r) = Ok sub ->
     let first_ns := SubscribeNamespaceNotifications w r eaaCtx in
     let first_svc := SubscribeServiceNotifications w r eaaCtx in
     SubscribeNamespaceNotifications w r (snd first_ns) = first_ns /\
     SubscribeServiceNotifications w r (snd first_svc) = first_svc).
Proof.
  intros once_ns twice_ns once_svc twice_svc.
  subst twice_ns twice_svc once_ns once_svc.
  rewrite addSubscriptionToNamespace_twice, addSubscriptionToService_twice.
  split; [reflexivity|]. split; [reflexivity|].
  split.
  { apply edit_subscription_ext. intros [nsl svl].
    unfold update_namespaceLevel. simpl.
    rewrite fold_left_app, fold_add_descriptor_idempotent. reflexivity. }
  split.
  { apply edit_subscription_ext. intros [nsl svl].
    unfold update_serviceLevel. simpl.
    rewrite fold_left_app, fold_add_descriptor_idempotent. reflexivity. }
  split.
  - intros urn Hurn.
    unfold addSubscriptionToNamespace, addSubscriptionToService.
    rewrite !(edit_subscription_status _ _ _ _ urn Hurn). auto.
  - intros w r <- <- <- Hsub first_ns first_svc.
    subst first_ns first_svc.
    unfold SubscribeNamespaceNotifications, SubscribeServiceNotifications.
    rewrite Hsub. split.
    + pose proof (addSubscriptionToNamespace_twice (CommonName r)
                    (mux_var r "urn.namespace") sub eaaCtx) as Htwice.
      destruct (addSubscriptionToNamespace _ _ _ eaaCtx)
        as [[st e] c] eqn:Honce.
      simpl in *. rewrite Htwice. reflexivity.
    + pose proof (addSubscriptionToService_twice (CommonName r)
                    (mux_var r "urn.namespace") (mux_var r "urn.id")
                    sub eaaCtx) as Htwice.
      destruct (addSubscriptionToService _ _ _ _ eaaCtx)
        as [[st e] c] eqn:Honce.
      simpl in *. rewrite Htwice. reflexivity.
Qed.

(** ** Reading the subscriptions back *)

Lemma getConsumerSubscriptions_own commonName eaaCtx urn :
  CommonNameStringToURN commonName = Ok urn ->
  getConsumerSubscriptions commonName eaaCtx
  = Ok (namespaceLevel
          (consumer_subscription (URN_String urn) (subscriptionInfo eaaCtx))
        ++ serviceLevel
          (consumer_subscription (URN_String urn) (subscriptionInfo eaaCtx))
       )%list.
Proof.
  intros Hurn. unfold getConsumerSubscriptions. rewrite Hurn. reflexivity.
Qed.

(** The answer depends on the entry of the consumer alone. *)
Lemma getConsumerSubscriptions_local commonName eaaCtx urn
    (idx : gmap string Subscription) :
  CommonNameStringToURN commonName = Ok urn ->
  idx !! URN_String urn = subscriptionInfo eaaCtx !! URN_String urn ->
  getConsumerSubscriptions commonName (set_subscriptionInfo idx eaaCtx)
  = getConsumerSubscriptions commonName eaaCtx.
Proof.
  intros Hurn Hidx. unfold getConsumerSubscriptions. rewrite Hurn. simpl.
  unfold consumer_subscription. rewrite Hidx. reflexivity.
Qed.

(** C5: for a consumer whose identity resolves, [GetSubscriptions] answers
    with exactly the namespace-level and the service-level descriptors of
    that consumer's entry; entries of other consumers have no part in the
    answer, which stays the same however they are changed. *)
Theorem get_subscriptions_own_union w r eaaCtx urn :
  CommonNameStringToURN (CommonName r) = Ok urn ->
  let own :=
    consumer_subscription (URN_String urn) (subscriptionInfo eaaCtx) in
  exists subs,
    getConsumerSubscriptions (CommonName r) eaaCtx = Ok subs /\
    (forall e, In e subs <->
               In e (namespaceLevel own) \/ In e (serviceLevel own)) /\
    (forall idx : gmap string Subscription,
       idx !! URN_String urn = subscriptionInfo eaaCtx !! URN_String urn ->
       getConsumerSubscriptions (CommonName r)
         (set_subscriptionInfo idx eaaCtx) = Ok subs) /\
    (forall other s,
       other <> URN_String urn ->
       getConsumerSubscriptions (CommonName r)
         (set_subscriptionInfo (<[other := s]> (subscriptionInfo eaaCtx))
            eaaCtx) = Ok subs) /\
    (forall data,
       status w = None -> broken w = false ->
       json_Marshal_SubscriptionList subs = Ok data ->
       GetSubscriptions w r eaaCtx
       = (mkResponseWriter (Header (content_type w)) (Some StatusOK)
            (body w ++ data ++ newline) false,
          eaaCtx)).
Proof.
  intros Hurn own.
  exists (namespaceLevel own ++ serviceLevel own)%list.
  pose proof (getConsumerSubscriptions_own _ eaaCtx _ Hurn) as Hown.
  fold own in Hown.
  split; [assumption|].
  split; [intros e; apply in_app_iff|].
  split.
  { intros idx Hidx.
    rewrite (getConsumerSubscriptions_local _ _ _ _ Hurn Hidx).
    assumption. }
  split.
  { intros other s Hne.
    rewrite (getConsumerSubscriptions_local _ _ urn); [assumption..|].
    apply lookup_insert_ne. assumption. }
  intros data Hw Hb Hdata.
  unfold GetSubscriptions. rewrite Hown. simpl. rewrite Hdata. simpl.
  rewrite Write_ok.
  - simpl. unfold WriteHeader. simpl. rewrite Hw. reflexivity.
  - apply status_WriteHeader_fresh. assumption.
  - unfold WriteHeader. simpl. rewrite Hw. assumption.
Qed.

(** ** Notification delivery *)

Lemma push_one_unreachable payload conns failed consumer :
  unreachable conns consumer ->
  push_one payload (conns, failed) consumer
  = (conns, (failed ++ [consumer])%list).
Proof.
  unfold unreachable, push_one.
  destruct (conns !! consumer) as [ch|]; [|reflexivity].
  intros ->. reflexivity.
Qed.

(** When no matched consumer can be reached every push fails: the
    channels stay as they were and every consumer is recorded as failed. *)
Lemma push_all_unreachable payload consumers conns :
  (forall c, In c consumers -> unreachable conns c) ->
  push_all payload consumers conns = (conns, consumers).
Proof.
  unfold push_all. intros Hall.
  enough (Hgen : forall failed,
             fold_left (push_one payload) consumers (conns, failed)
             = (conns, (failed ++ consumers)%list)) by apply Hgen.
  induction consumers as [|c consumers IH]; intros failed; cbn [fold_left].
  - rewrite app_nil_r. reflexivity.
  - rewrite push_one_unreachable by (apply Hall; left; reflexivity).
    rewrite IH by (intros c' Hc'; apply Hall; right; assumption).
    rewrite <- app_assoc. reflexivity.
Qed.

Lemma sendNotification_status commonName notif eaaCtx urn :
  CommonNameStringToURN commonName = Ok urn ->
  fst (sendNotificationToAllSubscribers commonName notif eaaCtx)
  = (match MatchSubscribers urn (Descriptor notif)
             (subscriptionInfo eaaCtx) with
     | [] => StatusResetContent
     | _ :: _ => StatusOK
     end, None).
Proof.
  intros Hurn. unfold sendNotificationToAllSubscribers. rewrite Hurn.
  destruct (MatchSubscribers _ _ _) as [|c consumers]; [reflexivity|].
  destruct (push_all _ _ _) as [conns failed]. reflexivity.
Qed.

Lemma PushNotification_status w r eaaCtx notif :
  json_Decode_Notification (Body r) = Ok notif ->
  fst (PushNotificationToSubscribers w r eaaCtx)
  = WriteHeader
      (fst (fst (sendNotificationToAllSubscribers (CommonName r) notif
                   eaaCtx)))
      (content_type w).
Proof.
  intros Hnotif. unfold PushNotificationToSubscribers. rewrite Hnotif.
  destruct (sendNotificationToAllSubscribers _ _ _) as [[st e] c].
  reflexivity.
Qed.

(** C3: a push request that matches no consumer is answered with the
    no-subscribers status, one that matches at least one consumer with the
    success status, also when none of the matched consumers can be reached
    and every push fails; the two statuses differ, and the handler writes
    the status that delivery returned. *)
Theorem push_no_subscribers_distinct w r eaaCtx notif urn :
  status w = None ->
  json_Decode_Notification (Body r) = Ok notif ->
  CommonNameStringToURN (CommonName r) = Ok urn ->
  let matched :=
    MatchSubscribers urn (Descriptor notif) (subscriptionInfo eaaCtx) in
  let answer := PushNotificationToSubscribers w r eaaCtx in
  (matched = [] -> status (fst answer) = Some StatusResetContent) /\
  (matched <> [] -> status (fst answer) = Some StatusOK) /\
  (matched <> [] ->
   (forall c, In c matched -> unreachable (consumerConnections eaaCtx) c) ->
   status (fst answer) = Some StatusOK /\
   push_all (NotificationPayload notif) matched (consumerConnections eaaCtx)
   = (consumerConnections eaaCtx, matched) /\
   consumerConnections (snd answer) = consumerConnections eaaCtx) /\
  Some StatusResetContent <> Some StatusOK /\
  status (fst answer)
  = Some (fst (fst (sendNotificationToAllSubscribers (CommonName r) notif
                      eaaCtx))).
Proof.
  intros Hw Hnotif Hurn matched answer. subst answer.
  rewrite (PushNotification_status _ _ _ _ Hnotif).
  rewrite (sendNotification_status _ _ _ _ Hurn). fold matched. simpl.
  rewrite status_WriteHeader_fresh by assumption.
  split; [intros ->; reflexivity|].
  split; [destruct matched; [contradiction|reflexivity]|].
  split; [|split; [discriminate|reflexivity]].
  intros Hne Hall.
  split; [destruct matched; [contradiction|reflexivity]|].
  pose proof (push_all_unreachable (NotificationPayload notif) _ _ Hall)
    as Hpush.
  split; [assumption|].
  unfold PushNotificationToSubscribers, sendNotificationToAllSubscribers.
  rewrite Hnotif, Hurn. fold matched.
  destruct matched as [|c consumers]; [contradiction|].
  rewrite Hpush. reflexivity.
Qed.

End Properties.

(** * The properties on the sample requests *)

Lemma parse_identity_total_injective_witness :
  CommonNameStringToURN "shop.cart" = Ok shop_cart /\
  CommonNameStringToURN "shopcart" = Err InvalidIdentity /\
  CommonNameStringToURN ".cart" = Err InvalidIdentity /\
  CommonNameStringToURN "shop." = Err InvalidIdentity.
Proof.
  destruct parse_identity_total_injective as (Htotal & _ & _ & _ & Hbad).
  split; [apply (Htotal "shop" "cart"); reflexivity|].
  split; [apply Hbad, malformed_no_dot; reflexivity|].
  split; [apply Hbad, (malformed_empty_namespace "cart")|].
  apply Hbad, (malformed_empty_id "shop"). reflexivity.
Defined.

(** A common name with a suffix resolves to the URN of its first two
    segments. *)
Example parse_identity_suffix :
  CommonNameStringToURN "shop.catalog.eu" = Ok shop_catalog.
Proof. reflexivity. Qed.

Lemma deregister_publishes_regardless_witness :
  status (fst (DeregisterApplication fresh_writer catalog_request
                 (sample_context 1))) = Some StatusNoContent /\
  status (fst (DeregisterApplication fresh_writer catalog_request
                 (empty_registry_context 1))) = Some StatusNotFound /\
  queue (MsgBrokerCtx (snd (DeregisterApplication fresh_writer
                              catalog_request (empty_registry_context 1))))
  = [("services",
      NewMessage "shop.catalog" (render_ServiceMsg
                                   (deregister_event shop_catalog)))].
Proof.
  destruct (deregister_publishes_regardless (H := test_External)
              fresh_writer catalog_request (sample_context 1) shop_catalog
              _ eq_refl eq_refl eq_refl) as (_ & Hpresent & _).
  destruct (deregister_publishes_regardless (H := test_External)
              fresh_writer catalog_request (empty_registry_context 1)
              shop_catalog _ eq_refl eq_refl eq_refl)
    as (Hsent & _ & Habsent).
  split; [apply Hpresent; reflexivity|].
  split; [apply Habsent; reflexivity|].
  rewrite Hsent. reflexivity.
Defined.

Lemma publish_failure_is_internal_error_witness :
  status (fst (RegisterApplication fresh_writer catalog_request
                 (sample_context 0))) = Some StatusInternalServerError /\
  status (fst (DeregisterApplication fresh_writer catalog_request
                 (sample_context 0))) = Some StatusInternalServerError /\
  serviceInfo (snd (RegisterApplication fresh_writer catalog_request
                      (sample_context 0)))
  = serviceInfo (sample_context 0).
Proof.
  destruct (publish_failure_is_internal_error (H := test_External)
              fresh_writer catalog_request (sample_context 0) eq_refl)
    as (Hreg & Hdereg & Hkeep & _).
  split; [eapply Hreg; reflexivity|].
  split; [eapply Hdereg; reflexivity|].
  exact Hkeep.
Defined.

Lemma push_no_subscribers_distinct_witness :
  status (fst (PushNotificationToSubscribers fresh_writer catalog_request
                 (sample_context 0))) = Some StatusOK /\
  status (fst (PushNotificationToSubscribers fresh_writer stockout_request
                 (sample_context 0))) = Some StatusResetContent.
Proof.
  destruct (push_no_subscribers_distinct (H := test_External)
              fresh_writer catalog_request (sample_context 0) _ shop_catalog
              eq_refl eq_refl eq_refl) as (_ & _ & Hfail & _).
  destruct (push_no_subscribers_distinct (H := test_External)
              fresh_writer stockout_request (sample_context 0) _ shop_catalog
              eq_refl eq_refl eq_refl) as (Hnone & _).
  split.
  - apply Hfail; [vm_compute; discriminate|].
    intros c _. unfold unreachable. simpl. rewrite lookup_empty. exact I.
  - apply Hnone. reflexivity.
Defined.

Lemma get_subscriptions_own_union_witness :
  GetSubscriptions fresh_writer cart_request (sample_context 0)
  = (mkResponseWriter (Header (content_type fresh_writer)) (Some StatusOK)
       ("shop.catalog/price-update@1" ++ newline) false,
     sample_context 0).
Proof.
  destruct (get_subscriptions_own_union (H := test_External)
              fresh_writer cart_request (sample_context 0) shop_cart eq_refl)
    as (subs & Hsubs & _ & _ & _ & Hbody).
  assert (Hlist : Ok subs
                  = Ok [(ServiceScope "shop" "catalog", price_update)])
    by (rewrite <- Hsubs; reflexivity).
  injection Hlist as Hlist.
  refine (Hbody "shop.catalog/price-update@1" eq_refl eq_refl _).
  rewrite Hlist. reflexivity.
Defined.

Lemma duplicate_subscribe_is_noop_witness :
  snd (addSubscriptionToService "shop.cart" "shop" "catalog" [price_update]
         (snd (addSubscriptionToService "shop.cart" "shop" "catalog"
                 [price_update] nil_registry_context)))
  = snd (addSubscriptionToService "shop.cart" "shop" "catalog"
           [price_update] nil_registry_context) /\
  fst (addSubscriptionToService "shop.cart" "shop" "catalog" [price_update]
         (snd (addSubscriptionToService "shop.cart" "shop" "catalog"
                 [price_update] nil_registry_context)))
  = (StatusCreated, None) /\
  SubscribeNamespaceNotifications fresh_writer cart_request
    (snd (SubscribeNamespaceNotifications fresh_writer cart_request
            nil_registry_context))
  = SubscribeNamespaceNotifications fresh_writer cart_request
      nil_registry_context.
Proof.
  destruct (duplicate_subscribe_is_noop (H := test_External)
              "shop.cart" "shop" "catalog" [price_update]
              nil_registry_context)
    as (_ & Hsvc & _ & _ & Hstatus & Hhandler).
  split; [exact Hsvc|].
  split; [apply (Hstatus shop_cart eq_refl)|].
  apply (Hhandler fresh_writer cart_request); reflexivity.
Defined.

Lemma encoding_failure_answers_200_witness :
  status (fst (GetServices broken_writer catalog_request (sample_context 0)))
  = Some StatusOK /\
  status (fst (GetSubscriptions broken_writer cart_request
                 (sample_context 0))) = Some StatusOK.
Proof.
  destruct (encoding_failure_answers_200 (H := test_External)
              broken_writer catalog_request (sample_context 0) eq_refl)
    as (Hservices & _).
  destruct (encoding_failure_answers_200 (H := test_External)
              broken_writer cart_request (sample_context 0) eq_refl)
    as (_ & Hsubs).
  split.
  - eapply Hservices; [reflexivity|]. vm_compute. eexists. reflexivity.
  - eapply Hsubs; [reflexivity|]. vm_compute. eexists. reflexivity.
Defined.

Lemma GetServices_always_200_witness :
  status (fst (GetServices fresh_writer catalog_request nil_registry_context))
  = Some StatusOK /\
  status (fst (GetServices broken_writer catalog_request (sample_context 0)))
  = Some StatusOK.
Proof.
  split.
  - apply (GetServices_always_200 (H := test_External)
             fresh_writer catalog_request nil_registry_context eq_refl).
  - apply (GetServices_always_200 (H := test_External)
             broken_writer catalog_request (sample_context 0) eq_refl).
Defined.

Lemma undecodable_body_leaves_index_witness :
  SubscribeNamespaceNotifications fresh_writer empty_request
    (sample_context 0)
  = (WriteHeader StatusInternalServerError (content_type fresh_writer),
     sample_context 0) /\
  UnsubscribeServiceNotifications fresh_writer empty_request
    (sample_context 0)
  = (WriteHeader StatusInternalServerError (content_type fresh_writer),
     sample_context 0).
Proof.
  destruct (undecodable_body_leaves_index (H := test_External)
              fresh_writer empty_request (sample_context 0) EncodingFailure
              eq_refl) as (Hsub & _ & _ & Hunsub & _).
  split; [exact Hsub|exact Hunsub].
Defined.

Lemma deregister_event_carries_urn_only_witness :
  (exists msg,
     snd (DeregisterApplication fresh_writer suffixed_request
            (sample_context 1))
     = fst (Context_publish "services" "services" msg (sample_context 1)) /\
     UUID msg = "shop.catalog" /\
     Payload msg = "deregister:{shop.catalog,,}") /\
  (exists msg,
     snd (RegisterApplication fresh_writer suffixed_request
            (sample_context 1))
     = fst (Context_publish "services" "services" msg (sample_context 1)) /\
     UUID msg = "shop.catalog.eu" /\
     Payload msg = "register:{shop.catalog,price-update,}").
Proof.
  destruct (deregister_event_carries_urn_only (H := test_External)
              fresh_writer suffixed_request (sample_context 1) shop_catalog
              eq_refl) as (Hdereg & _ & Hreg).
  split.
  - apply (Hdereg _ eq_refl).
  - apply (Hreg _ _ eq_refl eq_refl).
Defined.

(** The two keys on the bus, side by side, for a common name with a
    suffix: the deregister message is keyed by the URN, the register
    message by the common name. *)
Example register_and_deregister_keys :
  map (fun m => UUID (snd m))
    (queue (MsgBrokerCtx
              (snd (DeregisterApplication fresh_writer suffixed_request
                      (snd (RegisterApplication fresh_writer suffixed_request
                              (sample_context 2)))))))
  = ["shop.catalog.eu"; "shop.catalog"].
Proof. vm_compute. reflexivity. Qed.

(** * Further properties of the handlers *)

Section MoreProperties.

Context `{External}.

Implicit Types (w : ResponseWriter) (r : Request) (eaaCtx : Context).

(** ** The writer under [WriteHeader] and [Write] *)

Lemma Header_WriteHeader code w : Header (WriteHeader code w) = Header w.
Proof. unfold WriteHeader. destruct (status w); reflexivity. Qed.


Lemma is_Some_status_WriteHeader code w :
  is_Some (status (WriteHeader code w)).
Proof.
  unfold WriteHeader. destruct (status w) as [c|] eqn:Hw; simpl.
  - rewrite Hw. eexists. reflexivity.
  - eexists. reflexivity.
Qed.

Lemma WriteHeader_twice code code' w :
  WriteHeader code' (WriteHeader code w) = WriteHeader code w.
Proof.
  destruct (is_Some_status_WriteHeader code w) as [c Hc].
  apply (WriteHeader_superfluous c). assumption.
Qed.

Lemma Header_Write data w : Header (fst (Write data w)) = Header w.
Proof.
  unfold Write. destruct (broken (WriteHeader StatusOK w)); simpl;
    apply Header_WriteHeader.
Qed.

Lemma is_Some_status_Write data w : is_Some (status (fst (Write data w))).
Proof.
  unfold Write. destruct (broken (WriteHeader StatusOK w)); simpl;
    apply is_Some_status_WriteHeader.
Qed.

Lemma WriteHeader_after_Write code data w :
  WriteHeader code (fst (Write data w)) = fst (Write data w).
Proof.
  destruct (is_Some_status_Write data w) as [c Hc].
  apply (WriteHeader_superfluous c). assumption.
Qed.

Lemma Header_content_type w :
  Header (content_type w)
  = <["Content-Type" := "application/json; charset=UTF-8"]> (Header w).
Proof. reflexivity. Qed.

(** ** What a handler does to the writer *)

Ltac handler_paths :=
  repeat match goal with
         | |- context [match ?x with _ => _ end] => destruct x eqn:?
         end.

Ltac each_handler Hin :=
  simpl in Hin; repeat (destruct Hin as [<-|Hin]); [..|contradiction Hin].

(** The shape of an answer without a body: the content type is
    set and one status line is asked for. *)
Lemma bodiless_answer (h : Handler) w r eaaCtx :
  In h bodiless_handlers ->
  exists code, fst (h w r eaaCtx) = WriteHeader code (content_type w).
Proof.
  intros Hin. each_handler Hin.
  - unfold DeregisterApplication. handler_paths; simpl; eexists; reflexivity.
  - unfold PushNotificationToSubscribers.
    handler_paths; simpl; eexists; reflexivity.
  - unfold RegisterApplication. handler_paths; simpl; eexists; reflexivity.
  - unfold SubscribeNamespaceNotifications.
    handler_paths; simpl; eexists; reflexivity.
  - unfold SubscribeServiceNotifications.
    handler_paths; simpl; eexists; reflexivity.
  - unfold UnsubscribeAllNotifications.
    handler_paths; simpl; eexists; reflexivity.
  - unfold UnsubscribeNamespaceNotifications.
    handler_paths; simpl; eexists; reflexivity.
  - unfold UnsubscribeServiceNotifications.
    handler_paths; simpl; eexists; reflexivity.
Qed.

(** The answer of an encoding handler: the status line 200 alone, or the
    status line 200 and one write. *)
Lemma encoded_answer (m : result string) w :
  let w200 := WriteHeader StatusOK (content_type w) in
  let answer :=
    match Encoder_Encode m w200 with
    | (w', Some _) => WriteHeader StatusInternalServerError w'
    | (w', None) => w'
    end in
  answer = w200 \/ exists data, answer = fst (Write data w200).
Proof.
  intros w200 answer. subst answer. destruct m as [data|e]; simpl.
  - right. exists (data ++ newline).
    destruct (Write (data ++ newline) w200) as [w' [e|]] eqn:Hwrite;
      [|reflexivity].
    change w' with (fst (w', Some e)). rewrite <- Hwrite.
    apply WriteHeader_after_Write.
  - left. apply WriteHeader_twice.
Qed.

Lemma GetServices_answer_shape w r eaaCtx :
  let w200 := WriteHeader StatusOK (content_type w) in
  fst (GetServices w r eaaCtx) = w200 \/
  exists data, fst (GetServices w r eaaCtx) = fst (Write data w200).
Proof.
  intros w200. unfold GetServices.
  destruct (serviceInfo eaaCtx) as [registry|].
  - pose proof (encoded_answer
                  (json_Marshal_ServiceList
                     (mkServiceList (map snd (map_to_list registry)))) w)
      as Hshape.
    simpl in Hshape. fold w200 in Hshape |- *.
    destruct (Encoder_Encode _ w200) as [w' [e|]]; exact Hshape.
  - left. apply WriteHeader_twice.
Qed.

Lemma GetSubscriptions_answer_shape w r eaaCtx :
  let w200 := WriteHeader StatusOK (content_type w) in
  fst (GetSubscriptions w r eaaCtx) = w200 \/
  exists data, fst (GetSubscriptions w r eaaCtx) = fst (Write data w200).
Proof.
  intros w200. unfold GetSubscriptions.
  destruct (getConsumerSubscriptions _ _) as [subs|e].
  - pose proof (encoded_answer (json_Marshal_SubscriptionList subs) w)
      as Hshape.
    simpl in Hshape. fold w200 in Hshape |- *.
    destruct (Encoder_Encode _ w200) as [w' [e|]]; exact Hshape.
  - left. apply WriteHeader_twice.
Qed.

(** Every handler answers in one of the two shapes. *)
Lemma handler_answer_shape (h : Handler) w r eaaCtx :
  In h api_handlers ->
  exists code,
    fst (h w r eaaCtx) = WriteHeader code (content_type w) \/
    exists data,
      fst (h w r eaaCtx)
      = fst (Write data (WriteHeader code (content_type w))).
Proof.
  intros Hin.
  assert (Hcases : In h bodiless_handlers \/ h = GetServices
                   \/ h = GetSubscriptions).
  { each_handler Hin; simpl; auto 12. }
  destruct Hcases as [Hb|[->| ->]].
  - destruct (bodiless_answer h w r eaaCtx Hb) as [code Hcode].
    exists code. left. assumption.
  - exists StatusOK. apply GetServices_answer_shape.
  - exists StatusOK. apply GetSubscriptions_answer_shape.
Qed.

(** X1: every handler leaves the header map as it found it, with the
    content type set to JSON and nothing else added. *)
Theorem content_type_on_every_answer (h : Handler) w r eaaCtx :
  In h api_handlers ->
  Header (fst (h w r eaaCtx))
  = <["Content-Type" := "application/json; charset=UTF-8"]> (Header w) /\
  Header (fst (h w r eaaCtx)) !! "Content-Type"
  = Some "application/json; charset=UTF-8".
Proof.
  intros Hin.
  assert (Hmap : Header (fst (h w r eaaCtx))
                 = <["Content-Type" := "application/json; charset=UTF-8"]>
                     (Header w)).
  { destruct (handler_answer_shape h w r eaaCtx Hin)
      as [code [-> | [data ->]]].
    - rewrite Header_WriteHeader. apply Header_content_type.
    - rewrite Header_Write, Header_WriteHeader. apply Header_content_type. }
  split; [assumption|]. rewrite Hmap. apply lookup_insert_eq.
Qed.

(** X2: after any handler the writer holds a status line, and a status
    line that was written before the handler ran is the one it holds. *)
Theorem every_answer_has_a_status (h : Handler) w r eaaCtx :
  In h api_handlers ->
  is_Some (status (fst (h w r eaaCtx))) /\
  (forall code, status w = Some code ->
                status (fst (h w r eaaCtx)) = Some code).
Proof.
  intros Hin.
  destruct (handler_answer_shape h w r eaaCtx Hin)
    as [code [-> | [data ->]]].
  - split; [apply is_Some_status_WriteHeader|].
    intros c Hc.
    rewrite (WriteHeader_superfluous c); [assumption|assumption].
  - split; [apply is_Some_status_Write|].
    intros c Hc. apply status_Write.
    rewrite (WriteHeader_superfluous c); [assumption|assumption].
Qed.

(** X3: the eight handlers that encode no answer only set the content
    type and ask for one status line; they write no body. *)
Theorem no_body_without_encoder (h : Handler) w r eaaCtx :
  In h bodiless_handlers ->
  (exists code, fst (h w r eaaCtx) = WriteHeader code (content_type w)) /\
  body (fst (h w r eaaCtx)) = body w /\
  broken (fst (h w r eaaCtx)) = broken w.
Proof.
  intros Hin.
  destruct (bodiless_answer h w r eaaCtx Hin) as [code Hcode].
  split; [exists code; assumption|].
  rewrite Hcode. unfold WriteHeader.
  destruct (status (content_type w)); split; reflexivity.
Qed.

(** ** The two reading handlers *)


Lemma GetSubscriptions_context w r eaaCtx :
  snd (GetSubscriptions w r eaaCtx) = eaaCtx.
Proof.
  unfold GetSubscriptions.
  destruct (getConsumerSubscriptions _ _); [|reflexivity].
  destruct (Encoder_Encode _ _) as [w' [e|]]; reflexivity.
Qed.



(** X5: [GetSubscriptions] answers 200 on every path and never changes
    the context; when the subscriptions cannot be looked up, or cannot be
    marshaled, nothing is written behind the status line. *)
Theorem GetSubscriptions_always_200 w r eaaCtx :
  status w = None ->
  status (fst (GetSubscriptions w r eaaCtx)) = Some StatusOK /\
  snd (GetSubscriptions w r eaaCtx) = eaaCtx /\
  (forall e,
     getConsumerSubscriptions (CommonName r) eaaCtx = Err e ->
     fst (GetSubscriptions w r eaaCtx)
     = WriteHeader StatusOK (content_type w)) /\
  (forall subs e,
     getConsumerSubscriptions (CommonName r) eaaCtx = Ok subs ->
     json_Marshal_SubscriptionList subs = Err e ->
     fst (GetSubscriptions w r eaaCtx)
     = WriteHeader StatusOK (content_type w)).
Proof.
  intros Hw.
  split; [apply GetSubscriptions_status; assumption|].
  split; [apply GetSubscriptions_context|].
  split.
  - intros e Hsubs. unfold GetSubscriptions. rewrite Hsubs. simpl.
    apply WriteHeader_twice.
  - intros subs e Hsubs Hdata. unfold GetSubscriptions.
    rewrite Hsubs, Hdata. simpl. apply WriteHeader_twice.
Qed.

(** ** Requests that are turned away *)

(** X6: a register or push request whose body does not decode is answered
    500 and goes no further: the identity is not looked at, nothing is
    published or delivered, and the context is returned as it came. *)
Theorem undecodable_body_is_turned_away w r eaaCtx :
  (forall e,
     json_Decode_Service (Body r) = Err e ->
     RegisterApplication w r eaaCtx
     = (WriteHeader StatusInternalServerError (content_type w), eaaCtx)) /\
  (forall e,
     json_Decode_Notification (Body r) = Err e ->
     PushNotificationToSubscribers w r eaaCtx
     = (WriteHeader StatusInternalServerError (content_type w), eaaCtx)).
Proof.
  split; intros e Hdec.
  - unfold RegisterApplication. rewrite Hdec. reflexivity.
  - unfold PushNotificationToSubscribers. rewrite Hdec. reflexivity.
Qed.

(** X7: a register or deregister request whose common name does not
    resolve, or whose event does not marshal, is answered 500 and nothing
    is published: the context, bus included, is returned as it came. *)
Theorem unresolved_identity_publishes_nothing w r eaaCtx :
  let turned_away :=
    (WriteHeader StatusInternalServerError (content_type w), eaaCtx) in
  (forall e,
     CommonNameStringToURN (CommonName r) = Err e ->
     DeregisterApplication w r eaaCtx = turned_away) /\
  (forall urn e,
     CommonNameStringToURN (CommonName r) = Ok urn ->
     json_Marshal (deregister_event urn) = Err e ->
     DeregisterApplication w r eaaCtx = turned_away) /\
  (forall serv e,
     json_Decode_Service (Body r) = Ok serv ->
     CommonNameStringToURN (CommonName r) = Err e ->
     RegisterApplication w r eaaCtx = turned_away) /\
  (forall serv urn e,
     json_Decode_Service (Body r) = Ok serv ->
     CommonNameStringToURN (CommonName r) = Ok urn ->
     json_Marshal (register_event urn serv) = Err e ->
     RegisterApplication w r eaaCtx = turned_away).
Proof.
  intros turned_away. subst turned_away. repeat split.
  - intros e Hurn. unfold DeregisterApplication. rewrite Hurn. reflexivity.
  - intros urn e Hurn Hdata. unfold DeregisterApplication. rewrite Hurn.
    change (mkServiceMsg (Some (set_Service_URN urn zero_Service))
              serviceActionDeregister) with (deregister_event urn).
    rewrite Hdata. reflexivity.
  - intros serv e Hserv Hurn. unfold RegisterApplication.
    rewrite Hserv, Hurn. reflexivity.
  - intros serv urn e Hserv Hurn Hdata. unfold RegisterApplication.
    rewrite Hserv, Hurn.
    change (mkServiceMsg (Some (set_Service_URN urn serv))
              serviceActionRegister) with (register_event urn serv).
    rewrite Hdata. reflexivity.
Qed.

(** ** What register and deregister touch *)

Lemma Context_publish_frame publisher topic msg eaaCtx :
  fst (Context_publish publisher topic msg eaaCtx)
  = set_MsgBrokerCtx
      (MsgBrokerCtx (fst (Context_publish publisher topic msg eaaCtx)))
      eaaCtx.
Proof.
  unfold Context_publish. destruct (publish _ _ _ _) as [b e]. reflexivity.
Qed.

Lemma DeregisterApplication_paths w r eaaCtx :
  DeregisterApplication w r eaaCtx
  = (WriteHeader StatusInternalServerError (content_type w), eaaCtx) \/
  exists msg,
    snd (DeregisterApplication w r eaaCtx)
    = fst (Context_publish servicesTopic servicesTopic msg eaaCtx) /\
    (fst (DeregisterApplication w r eaaCtx)
     = WriteHeader StatusInternalServerError (content_type w) \/
     fst (DeregisterApplication w r eaaCtx)
     = WriteHeader StatusNoContent (content_type w) \/
     fst (DeregisterApplication w r eaaCtx)
     = WriteHeader StatusNotFound (content_type w)).
Proof.
  unfold DeregisterApplication.
  destruct (CommonNameStringToURN _) as [urn|]; [|left; reflexivity].
  destruct (json_Marshal _) as [data|]; [|left; reflexivity].
  right. exists (NewMessage (URN_String urn) data).
  destruct (Context_publish _ _ _ _) as [c [e|]]; simpl.
  - split; [reflexivity|]. left. reflexivity.
  - split; [reflexivity|]. right.
    destruct (isServicePresent _ _); simpl; [left|right]; reflexivity.
Qed.

Lemma RegisterApplication_paths w r eaaCtx :
  RegisterApplication w r eaaCtx
  = (WriteHeader StatusInternalServerError (content_type w), eaaCtx) \/
  exists msg,
    snd (RegisterApplication w r eaaCtx)
    = fst (Context_publish servicesTopic servicesTopic msg eaaCtx) /\
    (fst (RegisterApplication w r eaaCtx)
     = WriteHeader StatusInternalServerError (content_type w) \/
     fst (RegisterApplication w r eaaCtx)
     = WriteHeader StatusOK (content_type w)).
Proof.
  unfold RegisterApplication.
  destruct (json_Decode_Service _) as [serv|]; [|left; reflexivity].
  destruct (CommonNameStringToURN _) as [urn|]; [|left; reflexivity].
  destruct (json_Marshal _) as [data|]; [|left; reflexivity].
  right. exists (NewMessage (CommonName r) data).
  destruct (Context_publish _ _ _ _) as [c [e|]]; simpl.
  - split; [reflexivity|]. left. reflexivity.
  - split; [reflexivity|]. right. reflexivity.
Qed.

(** X8: a register or deregister request publishes at most one message
    and touches nothing but the bus: the subscription index and the live
    channels are returned as they came.  On a fresh writer the answer to a
    register request is 200 or 500, to a deregister request 204, 404 or
    500. *)
Theorem register_deregister_touch_only_the_bus w r eaaCtx :
  let registered := RegisterApplication w r eaaCtx in
  let deregistered := DeregisterApplication w r eaaCtx in
  (snd registered = eaaCtx \/
   exists msg, snd registered
               = fst (Context_publish servicesTopic servicesTopic msg
                        eaaCtx)) /\
  (snd deregistered = eaaCtx \/
   exists msg, snd deregistered
               = fst (Context_publish servicesTopic servicesTopic msg
                        eaaCtx)) /\
  subscriptionInfo (snd registered) = subscriptionInfo eaaCtx /\
  consumerConnections (snd registered) = consumerConnections eaaCtx /\
  subscriptionInfo (snd deregistered) = subscriptionInfo eaaCtx /\
  consumerConnections (snd deregistered) = consumerConnections eaaCtx /\
  (status w = None ->
   (status (fst registered) = Some StatusOK \/
    status (fst registered) = Some StatusInternalServerError) /\
   (status (fst deregistered) = Some StatusNoContent \/
    status (fst deregistered) = Some StatusNotFound \/
    status (fst deregistered) = Some StatusInternalServerError)).
Proof.
  intros registered deregistered. subst registered deregistered.
  pose proof (RegisterApplication_paths w r eaaCtx) as Hreg.
  pose proof (DeregisterApplication_paths w r eaaCtx) as Hdereg.
  split.
  { destruct Hreg as [-> | [msg [Hctx _]]]; [left; reflexivity|].
    right. exists msg. assumption. }
  split.
  { destruct Hdereg as [-> | [msg [Hctx _]]]; [left; reflexivity|].
    right. exists msg. assumption. }
  split.
  { destruct Hreg as [-> | [msg [-> _]]]; [reflexivity|].
    rewrite Context_publish_frame. reflexivity. }
  split.
  { destruct Hreg as [-> | [msg [-> _]]]; [reflexivity|].
    rewrite Context_publish_frame. reflexivity. }
  split.
  { destruct Hdereg as [-> | [msg [-> _]]]; [reflexivity|].
    rewrite Context_publish_frame. reflexivity. }
  split.
  { destruct Hdereg as [-> | [msg [-> _]]]; [reflexivity|].
    rewrite Context_publish_frame. reflexivity. }
  intros Hw.
  assert (Hfresh : forall code,
             status (WriteHeader code (content_type w)) = Some code)
    by (intros code; apply status_WriteHeader_fresh; assumption).
  split.
  - destruct Hreg as [-> | [msg [_ [-> | ->]]]]; simpl; rewrite Hfresh;
      auto.
  - destruct Hdereg as [-> | [msg [_ [-> | [-> | ->]]]]]; simpl;
      rewrite Hfresh; auto.
Qed.

(** X9: the URN a register request claims in its body is ignored: two
    requests of the same caller whose services agree on every field but
    the URN are handled alike, and what is published carries the URN of
    the caller's common name. *)
Theorem register_ignores_claimed_urn w r1 r2 eaaCtx serv1 serv2 :
  CommonName r1 = CommonName r2 ->
  json_Decode_Service (Body r1) = Ok serv1 ->
  json_Decode_Service (Body r2) = Ok serv2 ->
  EndpointURI serv1 = EndpointURI serv2 ->
  Description serv1 = Description serv2 ->
  Notifications serv1 = Notifications serv2 ->
  RegisterApplication w r1 eaaCtx = RegisterApplication w r2 eaaCtx /\
  (forall urn,
     CommonNameStringToURN (CommonName r1) = Ok urn ->
     register_event urn serv1 = register_event urn serv2 /\
     exists serv,
       Svc (register_event urn serv1) = Some serv /\
       Service_URN serv = Some urn).
Proof.
  intros Hcn Hs1 Hs2 He Hd Hn. split.
  - unfold RegisterApplication. rewrite Hs1, Hs2, Hcn.
    unfold set_Service_URN. rewrite He, Hd, Hn. reflexivity.
  - intros urn _. unfold register_event. rewrite He, Hd, Hn.
    split; [reflexivity|]. eexists. split; reflexivity.
Qed.

(** X10: what each handler reads of the request.  [GetServices] reads
    nothing; deregister, the subscription read-back and unsubscribe-all
    read the common name only, so a body, decodable or not, makes no
    difference to them; the namespace-scoped handlers do not read the
    route variable of the id. *)
Theorem handlers_read_only_their_inputs w r1 r2 eaaCtx :
  GetServices w r1 eaaCtx = GetServices w r2 eaaCtx /\
  (CommonName r1 = CommonName r2 ->
   DeregisterApplication w r1 eaaCtx = DeregisterApplication w r2 eaaCtx /\
   GetSubscriptions w r1 eaaCtx = GetSubscriptions w r2 eaaCtx /\
   UnsubscribeAllNotifications w r1 eaaCtx
   = UnsubscribeAllNotifications w r2 eaaCtx) /\
  (CommonName r1 = CommonName r2 -> Body r1 = Body r2 ->
   RegisterApplication w r1 eaaCtx = RegisterApplication w r2 eaaCtx /\
   PushNotificationToSubscribers w r1 eaaCtx
   = PushNotificationToSubscribers w r2 eaaCtx) /\
  (CommonName r1 = CommonName r2 -> Body r1 = Body r2 ->
   mux_var r1 "urn.namespace" = mux_var r2 "urn.namespace" ->
   SubscribeNamespaceNotifications w r1 eaaCtx
   = SubscribeNamespaceNotifications w r2 eaaCtx /\
   UnsubscribeNamespaceNotifications w r1 eaaCtx
   = UnsubscribeNamespaceNotifications w r2 eaaCtx).
Proof.
  split; [reflexivity|].
  split.
  { intros Hcn.
    unfold DeregisterApplication, GetSubscriptions,
      UnsubscribeAllNotifications.
    rewrite Hcn. repeat split. }
  split.
  { intros Hcn Hbody.
    unfold RegisterApplication, PushNotificationToSubscribers.
    rewrite Hcn, Hbody. repeat split. }
  intros Hcn Hbody Hns.
  unfold SubscribeNamespaceNotifications, UnsubscribeNamespaceNotifications.
  rewrite Hcn, Hbody, Hns. repeat split.
Qed.

(** ** A deregister right after a register *)



End MoreProperties.

(** ** [GetNotifications] *)

Section Notifications.

Context `{External}.

Variable createWsConn :
  ResponseWriter -> Request -> Context ->
  (Z * option Error) * (ResponseWriter * Context).

(** X11: with an uninitialised registry [GetNotifications] writes 500
    and goes on: the connection is still attempted on the writer that
    already carries the 500, the context is the one the attempt leaves,
    and whatever status code the attempt reports, the status line stays
    500 as long as the attempt itself keeps it. *)
Theorem GetNotifications_goes_on_after_500 w r eaaCtx :
  serviceInfo eaaCtx = None ->
  status w = None ->
  let w500 := WriteHeader StatusInternalServerError (content_type w) in
  let attempt := createWsConn w500 r eaaCtx in
  status w500 = Some StatusInternalServerError /\
  snd (GetNotifications createWsConn w r eaaCtx) = snd (snd attempt) /\
  (status (fst (snd attempt)) = Some StatusInternalServerError ->
   status (fst (GetNotifications createWsConn w r eaaCtx))
   = Some StatusInternalServerError).
Proof.
  intros Hnil Hw w500 attempt.
  split; [apply status_WriteHeader_fresh; assumption|].
  unfold GetNotifications. rewrite Hnil. fold w500. fold attempt.
  destruct attempt as [[statCode err] [w' c]]. simpl.
  split.
  - destruct err as [e|]; [|reflexivity].
    destruct (negb (statCode =? 0)); reflexivity.
  - intros Hkept. destruct err as [e|]; [|assumption].
    destruct (negb (statCode =? 0)); simpl; [|assumption].
    rewrite (WriteHeader_superfluous StatusInternalServerError);
      assumption.
Qed.

(** X12: with an initialised registry [GetNotifications] leaves the
    answer to the connection attempt: it writes to the writer only when
    the attempt fails with a status code other than 0, and then it sets
    the content type and asks for that status. *)
Theorem GetNotifications_answers_only_on_failure w r eaaCtx registry :
  serviceInfo eaaCtx = Some registry ->
  let attempt := createWsConn w r eaaCtx in
  let statCode := fst (fst attempt) in
  (snd (fst attempt) = None \/ statCode = 0 ->
   GetNotifications createWsConn w r eaaCtx = snd attempt) /\
  (is_Some (snd (fst attempt)) -> statCode <> 0 ->
   GetNotifications createWsConn w r eaaCtx
   = (WriteHeader statCode (content_type (fst (snd attempt))),
      snd (snd attempt))).
Proof.
  intros Hreg attempt statCode. subst statCode.
  unfold GetNotifications. rewrite Hreg. fold attempt.
  destruct attempt as [[statCode err] [w' c]]. simpl.
  split.
  - intros [-> | ->]; [reflexivity|]. destruct err; reflexivity.
  - intros [e ->] Hcode.
    destruct (Z.eqb_spec statCode 0) as [Heq|_]; [contradiction|].
    reflexivity.
Qed.

End Notifications.

(** * The further properties on the sample requests *)

Lemma content_type_on_every_answer_witness :
  Header (fst (GetServices fresh_writer catalog_request (sample_context 0)))
    !! "Content-Type"
  = Some "application/json; charset=UTF-8".
Proof.
  refine (proj2 (content_type_on_every_answer (H := test_External)
                   GetServices fresh_writer catalog_request
                   (sample_context 0) _)).
  simpl. right. left. reflexivity.
Defined.

Lemma every_answer_has_a_status_witness :
  status (fst (UnsubscribeAllNotifications answered_writer cart_request
                 (sample_context 0))) = Some StatusUnauthorized.
Proof.
  refine (proj2 (every_answer_has_a_status (H := test_External)
                   UnsubscribeAllNotifications answered_writer cart_request
                   (sample_context 0) _) StatusUnauthorized eq_refl).
  simpl. do 7 right. left. reflexivity.
Defined.

Lemma no_body_without_encoder_witness :
  body (fst (RegisterApplication fresh_writer catalog_request
               (sample_context 1))) = "".
Proof.
  refine (proj1 (proj2 (no_body_without_encoder (H := test_External)
                          RegisterApplication fresh_writer catalog_request
                          (sample_context 1) _))).
  simpl. do 2 right. left. reflexivity.
Defined.


Lemma GetSubscriptions_always_200_witness :
  fst (GetSubscriptions fresh_writer nobody_request (sample_context 0))
  = WriteHeader StatusOK (content_type fresh_writer).
Proof.
  destruct (GetSubscriptions_always_200 (H := test_External)
              fresh_writer nobody_request (sample_context 0) eq_refl)
    as (_ & _ & Hlookup & _).
  apply (Hlookup InvalidIdentity). reflexivity.
Defined.

Lemma undecodable_body_is_turned_away_witness :
  RegisterApplication fresh_writer empty_catalog_request (sample_context 1)
  = (WriteHeader StatusInternalServerError (content_type fresh_writer),
     sample_context 1) /\
  PushNotificationToSubscribers fresh_writer empty_catalog_request
    (sample_context 1)
  = (WriteHeader StatusInternalServerError (content_type fresh_writer),
     sample_context 1).
Proof.
  destruct (undecodable_body_is_turned_away (H := test_External)
              fresh_writer empty_catalog_request (sample_context 1))
    as (Hreg & Hpush).
  split; [apply (Hreg EncodingFailure)|apply (Hpush EncodingFailure)];
    reflexivity.
Defined.

Lemma unresolved_identity_publishes_nothing_witness :
  DeregisterApplication fresh_writer nobody_request (sample_context 1)
  = (WriteHeader StatusInternalServerError (content_type fresh_writer),
     sample_context 1) /\
  RegisterApplication (H := unmarshalable_External) fresh_writer
    catalog_request unmarshalable_context
  = (WriteHeader StatusInternalServerError (content_type fresh_writer),
     unmarshalable_context).
Proof.
  destruct (unresolved_identity_publishes_nothing (H := test_External)
              fresh_writer nobody_request (sample_context 1))
    as (Hdereg & _).
  destruct (unresolved_identity_publishes_nothing
              (H := unmarshalable_External)
              fresh_writer catalog_request unmarshalable_context)
    as (_ & _ & _ & Hreg).
  split.
  - apply (Hdereg InvalidIdentity). reflexivity.
  - eapply Hreg; reflexivity.
Defined.

Lemma register_deregister_touch_only_the_bus_witness :
  subscriptionInfo
    (snd (RegisterApplication fresh_writer catalog_request
            (sample_context 1)))
  = subscriptionInfo (sample_context 1) /\
  (status (fst (DeregisterApplication fresh_writer catalog_request
                  (sample_context 1))) = Some StatusNoContent \/
   status (fst (DeregisterApplication fresh_writer catalog_request
                  (sample_context 1))) = Some StatusNotFound \/
   status (fst (DeregisterApplication fresh_writer catalog_request
                  (sample_context 1))) = Some StatusInternalServerError).
Proof.
  destruct (register_deregister_touch_only_the_bus (H := test_External)
              fresh_writer catalog_request (sample_context 1))
    as (_ & _ & Hidx & _ & _ & _ & Hstatus).
  split; [exact Hidx|]. apply (Hstatus eq_refl).
Defined.

Lemma register_ignores_claimed_urn_witness :
  RegisterApplication (H := claiming_External) fresh_writer
    claiming_request (claiming_context 1)
  = RegisterApplication (H := claiming_External) fresh_writer
      unclaiming_request (claiming_context 1).
Proof.
  refine (proj1 (register_ignores_claimed_urn (H := claiming_External)
                   fresh_writer claiming_request unclaiming_request
                   (claiming_context 1) _ _
                   eq_refl eq_refl eq_refl eq_refl eq_refl eq_refl)).
Defined.

Lemma handlers_read_only_their_inputs_witness :
  DeregisterApplication fresh_writer empty_catalog_request
    (sample_context 1)
  = DeregisterApplication fresh_writer catalog_request (sample_context 1).
Proof.
  destruct (handlers_read_only_their_inputs (H := test_External)
              fresh_writer empty_catalog_request catalog_request
              (sample_context 1)) as (_ & Hcn & _).
  apply (Hcn eq_refl).
Defined.

Lemma GetNotifications_goes_on_after_500_witness :
  status (fst (GetNotifications test_createWsConn fresh_writer cart_request
                 nil_registry_context))
  = Some StatusInternalServerError /\
  consumerConnections
    (snd (GetNotifications test_createWsConn fresh_writer cart_request
            nil_registry_context)) !! "shop.cart"
  = Some (mkChannel true []).
Proof.
  destruct (GetNotifications_goes_on_after_500 (H := test_External)
              test_createWsConn fresh_writer cart_request
              nil_registry_context eq_refl eq_refl)
    as (_ & Hctx & Hstatus).
  split; [apply Hstatus; reflexivity|].
  rewrite Hctx. reflexivity.
Defined.

Lemma GetNotifications_answers_only_on_failure_witness :
  GetNotifications test_createWsConn fresh_writer nameless_request
    (sample_context 0)
  = (fresh_writer, sample_context 0) /\
  GetNotifications test_createWsConn fresh_writer nobody_request
    (sample_context 0)
  = (WriteHeader StatusUnauthorized (content_type fresh_writer),
     sample_context 0).
Proof.
  destruct (GetNotifications_answers_only_on_failure (H := test_External)
              test_createWsConn fresh_writer nameless_request
              (sample_context 0) _ eq_refl) as (Hquiet & _).
  destruct (GetNotifications_answers_only_on_failure (H := test_External)
              test_createWsConn fresh_writer nobody_request
              (sample_context 0) _ eq_refl) as (_ & Hloud).
  split.
  - apply Hquiet. right. reflexivity.
  - apply Hloud; [eexists; reflexivity|discriminate].
Defined.

